(** * doctolib_scraper: a shallow embedding of the scraping cycle

    The development follows [src/doctolib_scraper.py] and
    [src/email_alert.py].  A cycle is modelled from the decoded performance
    log of line 136 on: the extraction loop (lines 138-160), the warning on
    invalid identifiers (162-165), the availability loop (167-207), the
    e-mail report (89-103, 209) and the countdown (214-216).  The browser
    session of lines 110-132 is not embedded; its only product used below is
    the list [logs].

    Python values decoded from JSON are the type [json]; every primitive the
    script applies to them ([v[k]], [in], [len], iteration, [split]) is a
    function into [result], with the exception Python raises. *)

From Stdlib Require Import String Ascii List ZArith Bool Lia DecimalString.
From Stdlib Require Import Sorted Permutation.
Import ListNotations.
Set Warnings "-register-all".
Local Open Scope list_scope.
Local Open Scope string_scope.

(** ** Exceptions and results *)

Inductive exn : Type :=
| KeyError
| TypeError
| ValueError
| AttributeError
| IndexError
| RequestError.   (* anything raised by requests.get(...).json() *)

Inductive result (A : Type) : Type :=
| Ok (a : A)
| Raise (e : exn).
Arguments Ok {A} a.
Arguments Raise {A} e.

(** ** Strings *)

Module Str.

(** [needle in hay] on two [str] operands. *)
Fixpoint contains (needle hay : string) : bool :=
  if String.prefix needle hay then true
  else match hay with
       | EmptyString => false
       | String _ rest => contains needle rest
       end.

(** The declarative reading of the same test. *)
Definition substring_of (needle hay : string) : Prop :=
  exists pre post, hay = pre ++ needle ++ post.

(** A [string] holds the UTF-8 bytes of a Python [str].  A character is its
    lead byte with the continuation bytes that follow it. *)
Definition uchar : Type := (ascii * string)%type.

Definition is_continuation (b : ascii) : bool :=
  let n := nat_of_ascii b in (128 <=? n)%nat && (n <? 192)%nat.

Fixpoint chars_aux (lead : ascii) (cont : string) (s : string) : list uchar :=
  match s with
  | EmptyString => [(lead, cont)]
  | String b rest =>
      if is_continuation b then chars_aux lead (cont ++ String b EmptyString) rest
      else (lead, cont) :: chars_aux b EmptyString rest
  end.

(** The characters of a [str], in order. *)
Definition chars (s : string) : list uchar :=
  match s with
  | EmptyString => []
  | String b rest => chars_aux b EmptyString rest
  end.

(** A character as a one-character [str]. *)
Definition text (c : uchar) : string := String (fst c) (snd c).

Definition lead_bits (b : ascii) : N :=
  let n := N_of_ascii b in
  (if n <? 128 then n
   else if n <? 224 then n mod 32
   else if n <? 240 then n mod 16
   else n mod 8)%N.

Fixpoint cont_bits (acc : N) (s : string) : N :=
  match s with
  | EmptyString => acc
  | String b rest => cont_bits (acc * 64 + N_of_ascii b mod 64)%N rest
  end.

(** The code point a character encodes. *)
Definition code_point (c : uchar) : N := cont_bits (lead_bits (fst c)) (snd c).

(** The runs of decimal digits, category Nd of Unicode 14.0 (the database of
    Python 3.11), as first code point and length: what [\d] matches in a
    [str] pattern. *)
Definition decimal_runs : list (N * N) :=
  [(48, 10); (1632, 10); (1776, 10); (1984, 10); (2406, 10); (2534, 10);
   (2662, 10); (2790, 10); (2918, 10); (3046, 10); (3174, 10); (3302, 10);
   (3430, 10); (3558, 10); (3664, 10); (3792, 10); (3872, 10); (4160, 10);
   (4240, 10); (6112, 10); (6160, 10); (6470, 10); (6608, 10); (6784, 10);
   (6800, 10); (6992, 10); (7088, 10); (7232, 10); (7248, 10); (42528, 10);
   (43216, 10); (43264, 10); (43472, 10); (43504, 10); (43600, 10);
   (44016, 10); (65296, 10); (66720, 10); (68912, 10); (69734, 10);
   (69872, 10); (69942, 10); (70096, 10); (70384, 10); (70736, 10);
   (70864, 10); (71248, 10); (71360, 10); (71472, 10); (71904, 10);
   (72016, 10); (72784, 10); (73040, 10); (73120, 10); (92768, 10);
   (92864, 10); (93008, 10); (120782, 50); (123200, 10); (123632, 10);
   (125264, 10); (130032, 10)]%N.

Definition is_decimal (cp : N) : bool :=
  existsb (fun run => (fst run <=? cp)%N && (cp <? fst run + snd run)%N) decimal_runs.

(** [\d] on one character. *)
Definition is_digit (c : uchar) : bool := is_decimal (code_point c).

(** The digits 0 to 9. *)
Definition is_ascii_digit (b : ascii) : bool :=
  let n := nat_of_ascii b in (48 <=? n)%nat && (n <=? 57)%nat.

(** The longest run of digits at the head of a list of characters. *)
Fixpoint take_digits (l : list uchar) : string :=
  match l with
  | c :: rest => if is_digit c then text c ++ take_digits rest else EmptyString
  | [] => EmptyString
  end.

Fixpoint search_digits (l : list uchar) : option string :=
  match l with
  | [] => None
  | c :: rest =>
      if is_digit c then Some (text c ++ take_digits rest)
      else search_digits rest
  end.

(** [re.search(r"\d+", s)]: the leftmost, longest run of digits; [None]
    when the string has no digit. *)
Definition re_search_digits (s : string) : option string :=
  search_digits (chars s).

Definition has_digit (s : string) : bool := existsb is_digit (chars s).

(** [s.split(sep)] for a one-character separator; [acc] is the piece being
    read. *)
Fixpoint split_aux (sep : ascii) (acc : string) (s : string) : list string :=
  match s with
  | EmptyString => [acc]
  | String c rest =>
      if Ascii.eqb c sep then acc :: split_aux sep EmptyString rest
      else split_aux sep (acc ++ String c EmptyString) rest
  end.

Definition split (sep : ascii) (s : string) : list string :=
  split_aux sep EmptyString s.

(** [sep.join(l)] *)
Fixpoint join (sep : string) (l : list string) : string :=
  match l with
  | [] => EmptyString
  | [x] => x
  | x :: rest => x ++ sep ++ join sep rest
  end.

(** [sorted(l)] on strings: insertion sort on the lexicographic order. *)
Fixpoint insert (x : string) (l : list string) : list string :=
  match l with
  | [] => [x]
  | y :: rest => if String.leb x y then x :: l else y :: insert x rest
  end.

Definition sorted (l : list string) : list string :=
  fold_right insert [] l.

(** [str(n)] for an integer. *)
Definition of_Z (z : Z) : string := NilZero.string_of_int (Z.to_int z).
Definition of_nat (n : nat) : string := of_Z (Z.of_nat n).

End Str.

(** ** Decoded JSON values *)

(** What [json.loads] and [requests.get(...).json()] return.  Numbers are
    integers, as every number the script reads ([total]) is a count; a
    [dict] is its list of bindings, looked up from the left. *)
Inductive json : Type :=
| JNull
| JBool (b : bool)
| JNum (z : Z)
| JStr (s : string)
| JArr (items : list json)
| JObj (fields : list (string * json)).

Module Py.

Fixpoint assoc (k : string) (fields : list (string * json)) : option json :=
  match fields with
  | [] => None
  | (k', v) :: rest => if String.eqb k k' then Some v else assoc k rest
  end.

(** [v[k]] with a string key. *)
Definition getitem (v : json) (k : string) : result json :=
  match v with
  | JObj fields =>
      match assoc k fields with
      | Some x => Ok x
      | None => Raise KeyError
      end
  | _ => Raise TypeError
  end.

(** [v[0]] *)
Definition getitem0 (v : json) : result json :=
  match v with
  | JArr (x :: _) => Ok x
  | JArr [] => Raise IndexError
  | JStr s =>
      match Str.chars s with
      | c :: _ => Ok (JStr (Str.text c))
      | [] => Raise IndexError
      end
  | JObj _ => Raise KeyError
  | _ => Raise TypeError
  end.

(** [v == s] for a string literal [s]. *)
Definition eq_str (v : json) (s : string) : bool :=
  match v with
  | JStr s' => String.eqb s' s
  | _ => false
  end.

(** [s in v] for a string [s]: substring of a [str], element of a
    [list], key of a [dict]. *)
Definition contains (s : string) (v : json) : result bool :=
  match v with
  | JStr hay => Ok (Str.contains s hay)
  | JArr items => Ok (existsb (fun x => eq_str x s) items)
  | JObj fields =>
      Ok (match assoc s fields with Some _ => true | None => false end)
  | _ => Raise TypeError
  end.

(** [v > 0] *)
Definition gt0 (v : json) : result bool :=
  match v with
  | JNum z => Ok (0 <? z)%Z
  | JBool b => Ok b
  | _ => Raise TypeError
  end.

(** [len(v)] *)
Definition len (v : json) : result nat :=
  match v with
  | JStr s => Ok (List.length (Str.chars s))
  | JArr items => Ok (List.length items)
  | JObj fields => Ok (List.length fields)
  | _ => Raise TypeError
  end.

(** The characters of a [str], each as a [str]. *)
Definition chars (s : string) : list json :=
  map (fun c => JStr (Str.text c)) (Str.chars s).

(** The elements [for x in v] visits. *)
Definition iter (v : json) : result (list json) :=
  match v with
  | JArr items => Ok items
  | JStr s => Ok (chars s)
  | JObj fields => Ok (map (fun kv => JStr (fst kv)) fields)
  | _ => Raise TypeError
  end.

(** The truth value of [v] in an [if]. *)
Definition truthy (v : json) : bool :=
  match v with
  | JNull => false
  | JBool b => b
  | JNum z => negb (z =? 0)%Z
  | JStr s => negb (String.eqb s EmptyString)
  | JArr items => match items with [] => false | _ => true end
  | JObj fields => match fields with [] => false | _ => true end
  end.

(** [a, b = v.split("T")] *)
Definition split_T (v : json) : result (string * string) :=
  match v with
  | JStr s =>
      match Str.split "T"%char s with
      | [a; b] => Ok (a, b)
      | _ => Raise ValueError
      end
  | _ => Raise AttributeError
  end.

(** [re.search(r"\d+", v).group()] *)
Definition search_digits_group (v : json) : result string :=
  match v with
  | JStr s =>
      match Str.re_search_digits s with
      | Some d => Ok d
      | None => Raise AttributeError
      end
  | _ => Raise TypeError
  end.

End Py.

(** ** [log_filter] (lines 67-76) *)

Definition rbind {A B} (r : result A) (k : A -> result B) : result B :=
  match r with
  | Ok a => k a
  | Raise e => Raise e
  end.

Notation "x <-r e1 ; e2" := (rbind e1 (fun x => e2))
  (at level 61, e1 at next level, right associativity).

(** [a and b] on booleans: [b] is evaluated only when [a] holds. *)
Definition py_and (a : bool) (b : result bool) : result bool :=
  if a then b else Ok false.

Definition response_field (log_ : json) (k : string) : result json :=
  params <-r Py.getitem log_ "params" ;
  response <-r Py.getitem params "response" ;
  Py.getitem response k.

Definition log_filter (log_ : json) : result bool :=
  method <-r Py.getitem log_ "method" ;
  py_and (Py.eq_str method "Network.responseReceived")
    (mime <-r response_field log_ "mimeType" ;
     is_json <-r Py.contains "json" mime ;
     py_and is_json
       (url <-r response_field log_ "url" ;
        Py.contains "search_results" url)).

(** A log entry as the DevTools protocol emits it. *)
Definition log_entry (method mime url : string) : json :=
  JObj [("method", JStr method);
        ("params", JObj [("response", JObj [("mimeType", JStr mime);
                                            ("url", JStr url)])])].


(** ** Command line, configuration and the outside world *)

Inductive level : Type := Debug | Info | Warning | Error | Critical.

(** The parsed command line (lines 34-49) and the values read once at
    import (lines 60-61). *)
Record Config : Type := {
  delay : option Z;                (* --delay *)
  imminent : bool;                 (* --imminent *)
  email : bool;                    (* --email *)
  loglevel : level;                (* --loglevel, upper-cased *)
  current_date : string;           (* datetime.now().strftime("%Y-%m-%d") *)
  blocked_doctor_ids : string      (* config.get("main", "blocked_doctor_ids") *)
}.

(** Lines 32 and 45-46. *)
Definition DELAY (cfg : Config) : Z :=
  match delay cfg with
  | Some d => if (d =? 0)%Z then 600%Z else d
  | None => 600%Z
  end.

(** What [datetime.now().strftime("%Y-%m-%d")] gives when the module is
    loaded, and what it would give during the [k]-th turn of the loop of
    lines 220-221. *)
Record Clock : Type := {
  date_at_import : string;
  date_in_cycle : nat -> string
}.

(** Lines 43-61: what the module fixes once, when it is loaded. *)
Definition loaded (clock : Clock) (d : option Z) (only_imminent with_email : bool)
    (lvl : level) (blocked : string) : Config :=
  {| delay := d;
     imminent := only_imminent;
     email := with_email;
     loglevel := lvl;
     current_date := date_at_import clock;
     blocked_doctor_ids := blocked |}.

(** The functions of the Python library the cycle calls on text and dates.
    [None] stands for the [ValueError] the parsers raise. *)
Record Lib : Type := {
  datetime : Type;
  fromisoformat : string -> option datetime;
  strptime : string -> string -> option datetime;
  strftime : datetime -> string -> string;
  center : string -> nat -> string -> string;
  repr : json -> string
}.

(** What the network and the page answer during one cycle. *)
Record World : Type := {
  requests_get : string -> result json;    (* requests.get(url).json() *)
  find_element : string -> option string   (* innerHTML of the element, None: NoSuchElementException *)
}.

Inductive event : Type :=
| Print (line : string)
| PrintCR (line : string)                       (* print(line, end="\r") *)
| Log (lvl : level) (msg : string) (args : list string)
| HttpGet (url : string)
| FindElement (xpath : string)
| Sleep (seconds : nat)
| EmailAlert (subject body : string)
| DriverQuit.

Definition level_rank (l : level) : nat :=
  match l with
  | Debug => 10 | Info => 20 | Warning => 30 | Error => 40 | Critical => 50
  end.

(** What reaches the terminal: the prints, and the log records the
    configured level lets through. *)
Definition on_console (threshold : level) (e : event) : bool :=
  match e with
  | Print _ | PrintCR _ => true
  | Log l _ _ => (level_rank threshold <=? level_rank l)%nat
  | _ => false
  end.

Definition console (threshold : level) (t : list event) : list event :=
  filter (on_console threshold) t.

Definition is_email (e : event) : bool :=
  match e with EmailAlert _ _ => true | _ => false end.

(** ** The working collections of a cycle *)

(** An element of a record appended at lines 191 and 193: a string, or a
    set display [{s}]. *)
Inductive pyval : Type :=
| PStr (s : string)
| PSet (elems : list string).

Record colls : Type := mkColls {
  doctor_info : list (string * string);
  invalid_doctor_ids : list string;
  imminent_slots : list (list pyval)
}.

Definition empty_colls : colls := mkColls [] [] [].

(** ** The monad of the cycle: collections, exceptions, emitted events *)

Definition M (A : Type) : Type := colls -> result A * colls * list event.

Definition ret {A} (a : A) : M A := fun c => (Ok a, c, []).

Definition bind {A B} (m : M A) (k : A -> M B) : M B := fun c =>
  match m c with
  | (Ok a, c1, t1) =>
      match k a c1 with
      | (r, c2, t2) => (r, c2, (t1 ++ t2)%list)
      end
  | (Raise e, c1, t1) => (Raise e, c1, t1)
  end.

Notation "x <- e1 ;; e2" := (bind e1 (fun x => e2))
  (at level 61, e1 at next level, right associativity).
Notation "e1 ;; e2" := (bind e1 (fun _ => e2))
  (at level 61, right associativity).

Definition lift {A} (r : result A) : M A := fun c => (r, c, []).
Definition emit (e : event) : M unit := fun c => (Ok tt, c, [e]).
Definition gets {A} (f : colls -> A) : M A := fun c => (Ok (f c), c, []).
Definition modify (f : colls -> colls) : M unit := fun c => (Ok tt, f c, []).

Definition exn_eqb (a b : exn) : bool :=
  match a, b with
  | KeyError, KeyError | TypeError, TypeError | ValueError, ValueError
  | AttributeError, AttributeError | IndexError, IndexError
  | RequestError, RequestError => true
  | _, _ => false
  end.

(** [try: m  except e: h] *)
Definition try_except {A} (m : M A) (e : exn) (h : M A) : M A := fun c =>
  match m c with
  | (Raise e', c1, t1) =>
      if exn_eqb e e'
      then match h c1 with (r, c2, t2) => (r, c2, (t1 ++ t2)%list) end
      else (Raise e', c1, t1)
  | done => done
  end.

(** How an iteration of a [for] ends: falls through or [continue]s, or
    [break]s. *)
Inductive ctl : Type := Next | Break.

Fixpoint for_each {A} (body : A -> M ctl) (l : list A) : M unit :=
  match l with
  | [] => ret tt
  | x :: rest =>
      c <- body x ;;
      match c with
      | Next => for_each body rest
      | Break => ret tt
      end
  end.

Fixpoint for_ {A} (body : A -> M unit) (l : list A) : M unit :=
  match l with
  | [] => ret tt
  | x :: rest => body x ;; for_ body rest
  end.

Definition when (b : bool) (m : M unit) : M unit := if b then m else ret tt.

Definition append_doctor_info (r : string * string) : M unit :=
  modify (fun c => mkColls (doctor_info c ++ [r])%list (invalid_doctor_ids c) (imminent_slots c)).
Definition append_invalid (d : string) : M unit :=
  modify (fun c => mkColls (doctor_info c) (invalid_doctor_ids c ++ [d])%list (imminent_slots c)).
Definition append_imminent (r : list pyval) : M unit :=
  modify (fun c => mkColls (doctor_info c) (invalid_doctor_ids c) (imminent_slots c ++ [r])%list).

(** The colours of lines 27-30. *)
Definition ESC : string := String (ascii_of_nat 27) EmptyString.
Definition CGREEN : string := ESC ++ "[32m".
Definition CBLUE : string := ESC ++ "[34m".
Definition CVIOLET : string := ESC ++ "[35m".
Definition CEND : string := ESC ++ "[0m".

Definition NL : string := String (ascii_of_nat 10) EmptyString.

(** A printed line announcing a faraway slot (line 203). *)
Definition is_faraway (e : event) : bool :=
  match e with
  | Print line => String.prefix (CBLUE ++ "Found faraway slot:" ++ CEND) line
  | _ => false
  end.

Definition outcome {A} (x : result A * colls * list event) : result A := fst (fst x).
Definition final {A} (x : result A * colls * list event) : colls := snd (fst x).
Definition events {A} (x : result A * colls * list event) : list event := snd x.

(** ** A reference library

    An instance of [Lib] on the canonical forms the upstream service sends:
    dates [YYYY-MM-DD], times [HH:MM:SS.ffffff+HH:MM].  It serves the
    examples; the properties below hold for every [Lib]. *)

Module Ref.

Record dt : Type := mkDt { year : Z; month : Z; day : Z; hour : Z; minute : Z }.

Fixpoint number_aux (acc : Z) (s : string) : option Z :=
  match s with
  | EmptyString => Some acc
  | String c rest =>
      if Str.is_ascii_digit c
      then number_aux (10 * acc + Z.of_nat (nat_of_ascii c) - 48)%Z rest
      else None
  end.

Definition number (s : string) : option Z :=
  match s with
  | EmptyString => None
  | _ => number_aux 0%Z s
  end.

Definition leap (y : Z) : bool :=
  ((y mod 4 =? 0) && negb (y mod 100 =? 0) || (y mod 400 =? 0))%Z.

Definition days_in_month (y m : Z) : Z :=
  if (m =? 2)%Z then (if leap y then 29 else 28)%Z
  else if ((m =? 4) || (m =? 6) || (m =? 9) || (m =? 11))%Z then 30%Z
  else 31%Z.

Definition fromisoformat (s : string) : option dt :=
  match number (substring 0 4 s), number (substring 5 2 s), number (substring 8 2 s) with
  | Some y, Some m, Some d =>
      if ((String.length s =? 10)%nat
          && String.eqb (substring 4 1 s) "-" && String.eqb (substring 7 1 s) "-"
          && (1 <=? y)%Z && (1 <=? m)%Z && (m <=? 12)%Z
          && (1 <=? d)%Z && (d <=? days_in_month y m)%Z)%bool
      then Some (mkDt y m d 0 0)
      else None
  | _, _, _ => None
  end.

Definition strptime (s fmt : string) : option dt :=
  if String.eqb fmt "%H:%M:%S.%f%z"
  then
    match number (substring 0 2 s), number (substring 3 2 s), number (substring 6 2 s),
          number (substring 9 6 s), number (substring 16 2 s), number (substring 19 2 s) with
    | Some h, Some mi, Some sec, Some _, Some oh, Some om =>
        if ((String.length s =? 21)%nat
            && String.eqb (substring 2 1 s) ":" && String.eqb (substring 5 1 s) ":"
            && String.eqb (substring 8 1 s) "."
            && (String.eqb (substring 15 1 s) "+" || String.eqb (substring 15 1 s) "-")
            && String.eqb (substring 18 1 s) ":"
            && (h <? 24)%Z && (mi <? 60)%Z && (sec <? 62)%Z
            && (oh <? 24)%Z && (om <? 60)%Z)%bool
        then Some (mkDt 1900 1 1 h mi)
        else None
    | _, _, _, _, _, _ => None
    end
  else None.

(** Day of the week, 0 for Sunday. *)
Definition weekday (d : dt) : Z :=
  let a := ((14 - month d) / 12)%Z in
  let y := (year d - a)%Z in
  let m := (month d + 12 * a - 2)%Z in
  ((day d + y + y / 4 - y / 100 + y / 400 + (31 * m) / 12) mod 7)%Z.

Definition day_name (n : Z) : string :=
  nth (Z.to_nat n)
    ["Sunday"; "Monday"; "Tuesday"; "Wednesday"; "Thursday"; "Friday"; "Saturday"] "".

Definition month_name (n : Z) : string :=
  nth (Z.to_nat (n - 1))
    ["January"; "February"; "March"; "April"; "May"; "June"; "July"; "August";
     "September"; "October"; "November"; "December"] "".

Definition two_digits (n : Z) : string :=
  if (n <? 10)%Z then "0" ++ Str.of_Z n else Str.of_Z n.

Definition strftime (d : dt) (fmt : string) : string :=
  if String.eqb fmt "%A, %B %d, %Y"
  then day_name (weekday d) ++ ", " ++ month_name (month d) ++ " "
       ++ two_digits (day d) ++ ", " ++ Str.of_Z (year d)
  else if String.eqb fmt "%H:%M"
  then two_digits (hour d) ++ ":" ++ two_digits (minute d)
  else "".

Fixpoint replicate (n : nat) (fill : string) : string :=
  match n with
  | O => EmptyString
  | S k => fill ++ replicate k fill
  end.

(** [s.center(width, fill)] *)
Definition center (s : string) (width : nat) (fill : string) : string :=
  let n := List.length (Str.chars s) in
  if (width <=? n)%nat then s
  else
    let marg := (width - n)%nat in
    let left := (marg / 2 + (if Nat.odd marg && Nat.odd width then 1 else 0))%nat in
    replicate left fill ++ s ++ replicate (marg - left) fill.

(** [repr] of a decoded value whose strings need no escape. *)
Fixpoint repr (v : json) : string :=
  match v with
  | JNull => "None"
  | JBool true => "True"
  | JBool false => "False"
  | JNum z => Str.of_Z z
  | JStr s => "'" ++ s ++ "'"
  | JArr items => "[" ++ Str.join ", " (map repr items) ++ "]"
  | JObj fields =>
      "{" ++ Str.join ", "
               (map (fun kv => match kv with
                               | (k, x) => "'" ++ k ++ "': " ++ repr x
                               end) fields) ++ "}"
  end.

Definition lib : Lib :=
  Build_Lib dt fromisoformat strptime strftime center repr.

End Ref.

(** ** Sample data for the examples *)

Module Demo.

Definition config (only_imminent with_email : bool) (blocked : string) : Config :=
  {| delay := Some 2%Z;
     imminent := only_imminent;
     email := with_email;
     loglevel := Warning;
     current_date := "2025-06-01";
     blocked_doctor_ids := blocked |}.

Definition search_url : string :=
  "https://www.doctolib.fr/search_results/5567.json?limit=3".

Definition plain_url : string :=
  "https://www.doctolib.fr/search_results/profile.json".

Definition search_log : json :=
  log_entry "Network.responseReceived" "application/json" search_url.

Definition search_body : json :=
  JObj [("search_result",
         JObj [("visit_motive_id", JNum 777);
               ("agenda_ids", JArr [JNum 11; JNum 12]);
               ("practice_ids", JArr [JNum 99])])].

Definition link : string :=
  "https://www.doctolib.fr/availabilities.json?start_date=2025-06-01&visit_motive_ids=777&agenda_ids=11&practice_ids=99&limit=15".

(** A page with one provider, answering [availability] on its link. *)
Definition world (availability : json) (name : option string) : World :=
  {| requests_get := fun u =>
       if String.eqb u search_url then Ok search_body
       else if String.eqb u link then Ok availability
       else Raise RequestError;
     find_element := fun _ => name |}.

Definition one_slot : json :=
  JObj [("total", JNum 1);
        ("availabilities",
         JArr [JObj [("date", JStr "2025-06-01");
                     ("slots", JArr [JStr "2025-06-01T09:30:00.000000+02:00"])]])].

Definition two_slots : json :=
  JObj [("total", JNum 2);
        ("availabilities",
         JArr [JObj [("date", JStr "2025-06-01");
                     ("slots", JArr [JStr "2025-06-01T09:30:00.000000+02:00";
                                     JStr "2025-06-01T14:00:00.000000+02:00"])]])].

Definition none_listed : json :=
  JObj [("total", JNum 3); ("availabilities", JArr [])].

Definition faraway : json :=
  JObj [("total", JNum 0); ("availabilities", JArr []);
        ("next_slot", JStr "2025-07-10T10:00:00.000000+02:00")].

Definition null_next_slot : json :=
  JObj [("total", JNum 0); ("availabilities", JArr []); ("next_slot", JNull)].

End Demo.

(** ** More sample data *)

Module Cases.

(** An entry that is not a response: it has no [params]. *)
Definition other_log : json := JObj [("method", JStr "Network.requestWillBeSent")].

(** A response entry whose response has no MIME type. *)
Definition bare_log : json :=
  JObj [("method", JStr "Network.responseReceived");
        ("params", JObj [("response", JObj [("url", JStr Demo.search_url)])])].

Definition world (search availability : json) (name : option string) : World :=
  {| requests_get := fun u =>
       if String.eqb u Demo.search_url then Ok search
       else if String.eqb u Demo.link then Ok availability
       else Raise RequestError;
     find_element := fun _ => name |}.

Definition no_motive : json :=
  JObj [("search_result", JObj [("agenda_ids", JArr [JNum 11])])].

Definition no_agenda : json :=
  JObj [("search_result",
         JObj [("visit_motive_id", JNum 777);
               ("agenda_ids", JArr []);
               ("practice_ids", JArr [JNum 99])])].


Definition config_delay (d : option Z) : Config :=
  {| delay := d;
     imminent := false;
     email := false;
     loglevel := Warning;
     current_date := "2025-06-01";
     blocked_doctor_ids := "" |}.

Definition invalid_found : colls := mkColls [] ["30"; "4"; "12"] [].

(** Started on the first of June, still running on the second. *)
Definition overnight : Clock :=
  {| date_at_import := "2025-06-01";
     date_in_cycle := fun k => match k with
                               | O => "2025-06-01"
                               | S _ => "2025-06-02"
                               end |}.

(** A response entry that declares a MIME type and no URL. *)
Definition page_log : json :=
  JObj [("method", JStr "Network.responseReceived");
        ("params", JObj [("response", JObj [("mimeType", JStr "text/html")])])].

End Cases.

(** ** The cycle *)

Section Cycle.

Variable cfg : Config.
Variable lib : Lib.
Variable w : World.

(** [f"{v}"] for a decoded JSON value. *)
Definition format_value (v : json) : string :=
  match v with
  | JNull => "None"
  | JBool true => "True"
  | JBool false => "False"
  | JNum z => Str.of_Z z
  | JStr s => s
  | JArr _ | JObj _ => repr lib v
  end.

Definition parsed {A} (o : option A) : result A :=
  match o with
  | Some a => Ok a
  | None => Raise ValueError
  end.

(** [requests.get(url).json()] *)
Definition requests_get_json (url : json) : M json :=
  match url with
  | JStr u => emit (HttpGet u) ;; lift (requests_get w u)
  | _ => lift (Raise RequestError)
  end.

(** Lines 78-87. *)
Definition name_xpath (doctor_id : string) : string :=
  "//div[@id='search-result-" ++ doctor_id ++ "']//h3".

Definition get_doctor_name (doctor_id : string) : M (option string) :=
  let xpath := name_xpath doctor_id in
  emit (FindElement xpath) ;;
  match find_element w xpath with
  | Some html => ret (Some html)
  | None => emit (Log Error "Doctor's name not found!" []) ;; ret None
  end.

(** [data["search_result"][k]] *)
Definition search_result_field (data : json) (k : string) : result json :=
  sr <-r Py.getitem data "search_result" ;
  Py.getitem sr k.

(** The link of line 157. *)
Definition availability_link (visit_motive_id agenda_id practice_id : json) : string :=
  "https://www.doctolib.fr/availabilities.json?start_date=" ++ current_date cfg
  ++ "&visit_motive_ids=" ++ format_value visit_motive_id
  ++ "&agenda_ids=" ++ format_value agenda_id
  ++ "&practice_ids=" ++ format_value practice_id
  ++ "&limit=15".

(** Lines 139-160: the body of the loop over the relevant log entries. *)
Definition extract_entry (log : json) : M unit :=
  resp_url <- lift (response_field log "url") ;;
  doctor_id <- lift (Py.search_digits_group resp_url) ;;
  (if Str.contains doctor_id (blocked_doctor_ids cfg)
   then emit (Log Warning ("Skipping blocked doctor_id " ++ doctor_id) [])
   else
     data <- requests_get_json resp_url ;;
     emit (Log Debug "resp_url:" [format_value resp_url]) ;;
     sr <- lift (Py.getitem data "search_result") ;;
     has_motive <- lift (Py.contains "visit_motive_id" sr) ;;
     if negb has_motive
     then
       emit (Log Error "Invalid data or doctor does not take new appointments" []) ;;
       append_invalid doctor_id
     else
       visit_motive_id <- lift (search_result_field data "visit_motive_id") ;;
       agenda_ids <- lift (search_result_field data "agenda_ids") ;;
       agenda_id <- lift (Py.getitem0 agenda_ids) ;;
       practice_ids <- lift (search_result_field data "practice_ids") ;;
       practice_id <- lift (Py.getitem0 practice_ids) ;;
       append_doctor_info
         (doctor_id, availability_link visit_motive_id agenda_id practice_id)) ;;
  emit (Sleep 1).

(** Line 138: [filter] is lazy, so an entry is tested just before its turn. *)
Fixpoint extract_loop (logs : list json) : M unit :=
  match logs with
  | [] => ret tt
  | log :: rest =>
      relevant <- lift (log_filter log) ;;
      when relevant (extract_entry log) ;;
      extract_loop rest
  end.

(** Lines 162-165. *)
Definition report_invalid : M unit :=
  ids <- gets invalid_doctor_ids ;;
  when (0 <? List.length ids)%nat
    (emit (Log Warning
             ("The following IDs are invalid or are associated to doctors who do not take new appointments."
              ++ NL ++ "Consider adding them to blocked_doctor_ids: "
              ++ Str.join ", " (Str.sorted ids)) [])).

Definition DATE_FORMAT : string := "%A, %B %d, %Y".
Definition TIME_FORMAT : string := "%H:%M".

(** Lines 185-187 and 200-202: the two texts a timestamp is shown as. *)
Definition read_timestamp (stamp : json) : M (string * string) :=
  parts <- lift (Py.split_T stamp) ;;
  date_obj <- lift (parsed (fromisoformat lib (fst parts))) ;;
  time_obj <- lift (parsed (strptime lib (snd parts) "%H:%M:%S.%f%z")) ;;
  ret (strftime lib date_obj DATE_FORMAT, strftime lib time_obj TIME_FORMAT).

Definition imminent_line (date time : string) : string :=
  CGREEN ++ "Found imminent slot:" ++ CEND ++ " " ++ date ++ " at " ++ time.

Definition faraway_line (date time : string) : string :=
  CBLUE ++ "Found faraway slot:" ++ CEND ++ " " ++ date ++ " at " ++ time.

Definition header_line (label : string) : string :=
  center lib (CVIOLET ++ " " ++ label ++ " " ++ CEND) 60 "=".

(** [if doctor_name:] *)
Definition known_name (doctor_name : option string) : option string :=
  match doctor_name with
  | Some (String c rest) => Some (String c rest)
  | _ => None
  end.

(** Lines 173-176: the label of the header. *)
Definition shown_name (doctor_name : option string) : string :=
  match known_name doctor_name with
  | Some name => name
  | None => "[unknown]"
  end.

(** The record appended at line 191 or 193. *)
Definition slot_record (date time : string) (doctor_name : option string) : list pyval :=
  match known_name doctor_name with
  | Some name => [PSet [date]; PSet [time]; PStr name]
  | None => [PSet [date]; PSet [time]]
  end.

(** Lines 185-193. *)
Definition report_slot (doctor_name : option string) (slot : json) : M unit :=
  shown <- read_timestamp slot ;;
  emit (Print (imminent_line (fst shown) (snd shown))) ;;
  when (email cfg) (append_imminent (slot_record (fst shown) (snd shown) doctor_name)).

(** Lines 183-184. *)
Definition report_availability (doctor_name : option string) (availability : json) : M unit :=
  slots <- lift (Py.getitem availability "slots") ;;
  each <- lift (Py.iter slots) ;;
  for_ (report_slot doctor_name) each.

(** Lines 171-193: a response with [total > 0]. *)
Definition resolve_imminent (doctor_id link : string) (data : json) : M ctl :=
  doctor_name <- get_doctor_name doctor_id ;;
  emit (Log Info "Analyzing" [link]) ;;
  emit (Print (header_line (shown_name doctor_name))) ;;
  availabilities <- lift (Py.getitem data "availabilities") ;;
  n <- lift (Py.len availabilities) ;;
  if (n <=? 0)%nat
  then emit (Log Error "No valid appointments found!" []) ;; ret Break
  else
    availabilities <- lift (Py.getitem data "availabilities") ;;
    each <- lift (Py.iter availabilities) ;;
    for_ (report_availability doctor_name) each ;;
    ret Next.

(** Lines 196-205: a response with [total <= 0]. *)
Definition resolve_faraway (link : string) (data : json) : M ctl :=
  if negb (imminent cfg)
  then
    try_except
      (next_slot <- lift (Py.getitem data "next_slot") ;;
       if Py.truthy next_slot
       then
         emit (Log Info "Analyzing" [link]) ;;
         next_slot <- lift (Py.getitem data "next_slot") ;;
         shown <- read_timestamp next_slot ;;
         emit (Print (faraway_line (fst shown) (snd shown))) ;;
         ret Next
       else ret Next)
      KeyError
      (ret Next)
  else ret Next.

(** Lines 168-205: the body of the loop over [doctor_info]. *)
Definition resolve_provider (provider : string * string) : M ctl :=
  let (doctor_id, link) := provider in
  data <- requests_get_json (JStr link) ;;
  total <- lift (Py.getitem data "total") ;;
  positive <- lift (Py.gt0 total) ;;
  if positive
  then resolve_imminent doctor_id link data
  else resolve_faraway link data.

(** Lines 167-207. *)
Definition resolve : M unit :=
  info <- gets doctor_info ;;
  if (0 <? List.length info)%nat
  then for_each resolve_provider info
  else emit (Log Error "No doctors found!" []).

(** [v[0]] on an element of a slot record. *)
Definition pyval_getitem0 (v : pyval) : result string :=
  match v with
  | PStr s =>
      match Str.chars s with
      | c :: _ => Ok (Str.text c)
      | [] => Raise IndexError
      end
  | PSet _ => Raise TypeError
  end.

(** Lines 94-97: the line a record adds to the message. *)
Definition slot_line (record : list pyval) : result string :=
  match record with
  | [a; b; c] =>
      date <-r pyval_getitem0 a ;
      time <-r pyval_getitem0 b ;
      name <-r pyval_getitem0 c ;
      Ok ("- " ++ date ++ " @ " ++ time ++ " with " ++ name ++ NL)
  | [a; b] =>
      date <-r pyval_getitem0 a ;
      time <-r pyval_getitem0 b ;
      Ok ("- " ++ date ++ " @ " ++ time ++ NL)
  | _ => Ok ""
  end.

Fixpoint compose_message (message : string) (slots : list (list pyval)) : result string :=
  match slots with
  | [] => Ok message
  | record :: rest =>
      line <-r slot_line record ;
      compose_message (message ++ line) rest
  end.

(** [email_alert] of [email_alert.py]: one message handed to the SMTP
    server. *)
Definition email_alert (subject body : string) : M unit :=
  emit (EmailAlert subject body).

(** Lines 89-103. *)
Definition check_imminent_slots (slots : list (list pyval)) : M unit :=
  let nb_of_slots := List.length slots in
  if (0 <? nb_of_slots)%nat
  then
    message <- lift (compose_message
                       ("The following imminent appointments are available:" ++ NL ++ NL)
                       slots) ;;
    if (nb_of_slots =? 1)%nat
    then email_alert "Found 1 imminent appointment on Doctolib" message
    else email_alert ("Found " ++ Str.of_nat nb_of_slots
                      ++ " imminent appointments on Doctolib") message
  else ret tt.

(** Lines 214-216. *)
Fixpoint countdown (i : nat) : M unit :=
  match i with
  | O => ret tt
  | S j =>
      emit (Sleep 1) ;;
      emit (PrintCR ("Retrying in: " ++ Str.of_nat i ++ " seconds")) ;;
      countdown j
  end.

(** Lines 106-108. *)
Definition fresh_collections : M unit := modify (fun _ => empty_colls).

(** [main], from the decoded log on. *)
Definition main (logs : list json) : M unit :=
  fresh_collections ;;
  extract_loop logs ;;
  report_invalid ;;
  resolve ;;
  slots <- gets imminent_slots ;;
  check_imminent_slots slots ;;
  emit (Log Info "Exiting driver…" []) ;;
  emit DriverQuit ;;
  countdown (Z.to_nat (DELAY cfg)).

(** Lines 220-221, for [n] turns of the loop with the same log and the same
    answers: the events of each cycle, up to the first cycle that raises.
    [c] is what the previous cycle left behind. *)
Fixpoint scheduler (n : nat) (logs : list json) (c : colls) : list (list event) :=
  match n with
  | O => []
  | S k =>
      match main logs c with
      | (Ok _, c', t) => t :: scheduler k logs c'
      | (Raise _, _, t) => [t]
      end
  end.

(** [P] on the collections and [E] on every emitted event are kept by [m]. *)
Definition keeps {A} (P : colls -> Prop) (E : event -> Prop) (m : M A) : Prop :=
  forall c, P c -> P (final (m c)) /\ Forall E (events (m c)).

(** No record of [doctor_info] carries a blocked identifier. *)
Definition unblocked_records (c : colls) : Prop :=
  forall doctor_id link,
    In (doctor_id, link) (doctor_info c) ->
    Str.contains doctor_id (blocked_doctor_ids cfg) = false.

(** A request goes to a URL whose identifier is not blocked. *)
Definition unblocked_request (e : event) : Prop :=
  forall url, e = HttpGet url ->
    exists doctor_id,
      Str.re_search_digits url = Some doctor_id
      /\ Str.contains doctor_id (blocked_doctor_ids cfg) = false.

(** What the name lookup logs when the element is missing (line 86). *)
Definition name_miss (doctor_id : string) : list event :=
  match find_element w (name_xpath doctor_id) with
  | Some _ => []
  | None => [Log Error "Doctor's name not found!" []]
  end.

(** The events of a provider whose response has a positive [total] and no
    availabilities. *)
Definition aborted_trace (doctor_id link : string) : list event :=
  ([HttpGet link; FindElement (name_xpath doctor_id)] ++ name_miss doctor_id
   ++ [Log Info "Analyzing" [link];
       Print (header_line (shown_name (find_element w (name_xpath doctor_id))));
       Log Error "No valid appointments found!" []])%list.

Definition no_slot_kept (c : colls) : Prop := imminent_slots c = [].
Definition not_email (e : event) : Prop := is_email e = false.

(** ** Counting and closed forms *)




(** The seconds a trace spends in [sleep]. *)
Definition slept (t : list event) : nat :=
  fold_right (fun e n => match e with Sleep s => (s + n)%nat | _ => n end) 0%nat t.


(** The two texts of a timestamp, or the exception reading it raises
    (lines 185-187 without the surrounding effects). *)
Definition timestamp_text (stamp : json) : result (string * string) :=
  parts <-r Py.split_T stamp ;
  date_obj <-r parsed (fromisoformat lib (fst parts)) ;
  time_obj <-r parsed (strptime lib (snd parts) "%H:%M:%S.%f%z") ;
  Ok (strftime lib date_obj DATE_FORMAT, strftime lib time_obj TIME_FORMAT).

Definition slot_lines (shown : list (string * string)) : list event :=
  map (fun s => Print (imminent_line (fst s) (snd s))) shown.

Definition slot_records (doctor_name : option string) (shown : list (string * string))
  : list (list pyval) :=
  map (fun s => slot_record (fst s) (snd s) doctor_name) shown.

(** The collections with [records] appended to [imminent_slots]. *)
Definition add_slots (records : list (list pyval)) (c : colls) : colls :=
  mkColls (doctor_info c) (invalid_doctor_ids c) (imminent_slots c ++ records)%list.

(** What a provider with slots leaves in the batch. *)
Definition kept_records (doctor_name : option string) (shown : list (string * string))
  : list (list pyval) :=
  if email cfg then slot_records doctor_name shown else [].

(** The countdown of lines 214-216 as a list: from [n] down to 1. *)
Definition countdown_trace (n : nat) : list event :=
  flat_map (fun i => [Sleep 1; PrintCR ("Retrying in: " ++ Str.of_nat i ++ " seconds")])
    (rev (seq 1 n)).

(** The seconds the configured delay stands for. *)
Definition waited (cfg0 : Config) : nat :=
  match delay cfg0 with
  | None => 600%nat
  | Some d => if (d =? 0)%Z then 600%nat else Z.to_nat d
  end.

(** A record appended by [main] cannot be read by [check_imminent_slots]. *)
Definition unreadable (c : colls) : Prop :=
  Forall (fun record => slot_line record = Raise TypeError) (imminent_slots c).

(** [s[0]] on a non-empty string. *)
Definition first_char (s : string) : string :=
  match Str.chars s with
  | c :: _ => Str.text c
  | [] => EmptyString
  end.

(** The subject of lines 99-103. *)
Definition subject_for (n : nat) : string :=
  if (n =? 1)%nat then "Found 1 imminent appointment on Doctolib"
  else "Found " ++ Str.of_nat n ++ " imminent appointments on Doctolib".

Definition MESSAGE_HEAD : string :=
  "The following imminent appointments are available:" ++ NL ++ NL.

(** The line of a record whose fields are strings. *)
Definition text_line (fields : list string) : string :=
  match fields with
  | [a; b; c] => "- " ++ first_char a ++ " @ " ++ first_char b
                 ++ " with " ++ first_char c ++ NL
  | [a; b] => "- " ++ first_char a ++ " @ " ++ first_char b ++ NL
  | _ => EmptyString
  end.

Definition string_record (fields : list string) : list pyval := map PStr fields.

(** A day-grouping whose slots all read, with the texts they are shown as. *)
Definition day_shows (day : json) (shown : list (string * string)) : Prop :=
  exists slots,
    Py.getitem day "slots" = Ok (JArr slots)
    /\ Forall2 (fun slot s => timestamp_text slot = Ok s) slots shown.

(** The events of a provider with a positive [total], before its slots. *)
Definition provider_head (doctor_id link : string) : list event :=
  ([HttpGet link; FindElement (name_xpath doctor_id)] ++ name_miss doctor_id
   ++ [Log Info "Analyzing" [link];
       Print (header_line (shown_name (find_element w (name_xpath doctor_id))))])%list.

Definition INVALID_NOTICE : string :=
  "The following IDs are invalid or are associated to doctors who do not take new appointments."
  ++ NL ++ "Consider adding them to blocked_doctor_ids: ".

(** The body lines of a batch of string records, in order. *)
Definition text_lines (records : list (list string)) : string :=
  fold_right (fun fields rest => text_line fields ++ rest) EmptyString records.

Definition le_string (a b : string) : Prop := String.leb a b = true.

(** A request of the availability loop goes to a link of [info]. *)
Definition requests_link_of (info : list (string * string)) (e : event) : Prop :=
  forall url, e = HttpGet url -> In url (map snd info).

(** A request of the extraction loop goes to the response URL of a relevant
    entry of [logs]. *)
Definition requests_url_of (logs : list json) (e : event) : Prop :=
  forall url, e = HttpGet url ->
    exists log,
      In log logs /\ log_filter log = Ok true
      /\ response_field log "url" = Ok (JStr url).

(** An entry the filter can read: it names a method, and, as far as the
    filter goes on to read them, the MIME type and the URL of its response
    are strings. *)
Definition readable_entry (log_ : json) : Prop :=
  exists method,
    Py.getitem log_ "method" = Ok method
    /\ (method = JStr "Network.responseReceived" ->
        exists mime,
          response_field log_ "mimeType" = Ok (JStr mime)
          /\ (Str.substring_of "json" mime ->
              exists url, response_field log_ "url" = Ok (JStr url))).

(** The three conditions of relevance. *)
Definition relevant_entry (log_ : json) : Prop :=
  Py.getitem log_ "method" = Ok (JStr "Network.responseReceived")
  /\ (exists mime,
        response_field log_ "mimeType" = Ok (JStr mime)
        /\ Str.substring_of "json" mime)
  /\ (exists url,
        response_field log_ "url" = Ok (JStr url)
        /\ Str.substring_of "search_results" url).

(** ** Facts on strings *)

Lemma prefix_app (p s : string) :
  String.prefix p s = true <-> exists post, s = p ++ post.
Proof.
  revert s; induction p as [|c p IH]; intros s.
  - split; [intros _; exists s; reflexivity | intros _; now destruct s].
  - destruct s as [|d s]; simpl.
    + split; [discriminate | intros [post H]; discriminate].
    + destruct (Ascii.ascii_dec c d) as [->|Hne].
      * rewrite IH. split; intros [post H]; exists post.
        -- now rewrite H.
        -- now inversion H.
      * split; [discriminate | intros [post H]; inversion H; congruence].
Qed.

Lemma contains_substring_of (needle hay : string) :
  Str.contains needle hay = true <-> Str.substring_of needle hay.
Proof.
  unfold Str.substring_of.
  induction hay as [|c hay IH]; cbn [Str.contains].
  - destruct (String.prefix needle "") eqn:E.
    + apply prefix_app in E. destruct E as [post E].
      split; [intros _; exists "", post; exact E | intros _; reflexivity].
    + split; [discriminate|]. intros (pre & post & H).
      destruct pre; simpl in H.
      * assert (String.prefix needle "" = true) by (apply prefix_app; eauto).
        congruence.
      * discriminate.
  - destruct (String.prefix needle (String c hay)) eqn:E.
    + apply prefix_app in E. destruct E as [post E].
      split; [intros _; exists "", post; exact E | intros _; reflexivity].
    + rewrite IH. split.
      * intros (pre & post & H). exists (String c pre), post. simpl. now rewrite H.
      * intros (pre & post & H). destruct pre as [|d pre]; simpl in H.
        -- assert (String.prefix needle (String c hay) = true)
             by (apply prefix_app; eauto).
           congruence.
        -- inversion H. eauto.
Qed.

Lemma contains_false_iff (needle hay : string) :
  Str.contains needle hay = false <-> ~ Str.substring_of needle hay.
Proof.
  rewrite <- contains_substring_of.
  destruct (Str.contains needle hay); split; intros; congruence.
Qed.

(** ** The relevance filter *)

(** C3.  On every log entry the filter can read, [log_filter] returns
    [True] exactly when the three conditions hold: the method is
    ["Network.responseReceived"], ["json"] occurs in the declared MIME type
    and ["search_results"] occurs in the response URL; and it returns
    [False] exactly when one of them fails.  An entry with another method
    needs no [params], and one whose MIME type has no ["json"] needs no
    URL. *)
Theorem log_filter_iff (log_ : json) :
  readable_entry log_ ->
  (log_filter log_ = Ok true <-> relevant_entry log_)
  /\ (log_filter log_ = Ok false <-> ~ relevant_entry log_).
Proof.
  intros (method & Hm & Hread). unfold log_filter, relevant_entry.
  rewrite Hm. cbn [rbind].
  destruct (Py.eq_str method "Network.responseReceived") eqn:Heq; cbn [py_and].
  2:{ assert (Hne : method <> JStr "Network.responseReceived").
      { intros ->. cbn in Heq. discriminate. }
      split; split; try discriminate; try reflexivity.
      - intros (H & _). congruence.
      - intros _ (H & _). congruence. }
  assert (Hmethod : method = JStr "Network.responseReceived").
  { destruct method as [| | |m| |]; try discriminate Heq.
    cbn in Heq. apply String.eqb_eq in Heq. now subst. }
  destruct (Hread Hmethod) as (mime & Hmime & Hlazy). subst method.
  rewrite Hmime. cbn [rbind Py.contains].
  destruct (Str.contains "json" mime) eqn:Ej; cbn [py_and].
  2:{ apply contains_false_iff in Ej.
      split; split; try discriminate; try reflexivity.
      - intros (_ & (mime' & Hm' & Hsub) & _).
        assert (mime' = mime) by congruence. subst mime'. contradiction.
      - intros _ (_ & (mime' & Hm' & Hsub) & _).
        assert (mime' = mime) by congruence. subst mime'. contradiction. }
  apply contains_substring_of in Ej.
  destruct (Hlazy Ej) as (url & Hurl). rewrite Hurl. cbn [rbind Py.contains].
  destruct (Str.contains "search_results" url) eqn:Eu.
  - apply contains_substring_of in Eu.
    split; split; try discriminate; try reflexivity.
    + intros _. repeat split; eauto.
    + intros H. exfalso. apply H. repeat split; eauto.
  - apply contains_false_iff in Eu.
    split; split; try discriminate; try reflexivity.
    + intros (_ & _ & (url' & Hu' & Hsub)).
      assert (url' = url) by congruence. subst url'. contradiction.
    + intros _ (_ & _ & (url' & Hu' & Hsub)).
      assert (url' = url) by congruence. subst url'. contradiction.
Qed.

(** ** Invariants of monadic code *)

Section Keeps.

Variable P : colls -> Prop.
Variable E : event -> Prop.

Lemma keeps_ret {A} (a : A) : keeps P E (ret a).
Proof. intros c Hc. split; [exact Hc | constructor]. Qed.

Lemma keeps_lift {A} (r : result A) : keeps P E (lift r).
Proof. intros c Hc. split; [exact Hc | constructor]. Qed.

Lemma keeps_gets {A} (f : colls -> A) : keeps P E (gets f).
Proof. intros c Hc. split; [exact Hc | constructor]. Qed.

Lemma keeps_emit (e : event) : E e -> keeps P E (emit e).
Proof. intros He c Hc. split; [exact Hc | repeat constructor; exact He]. Qed.

Lemma keeps_modify (f : colls -> colls) :
  (forall c, P c -> P (f c)) -> keeps P E (modify f).
Proof. intros Hf c Hc. split; [apply Hf, Hc | constructor]. Qed.

Lemma keeps_bind {A B} (m : M A) (k : A -> M B) :
  keeps P E m -> (forall a, keeps P E (k a)) -> keeps P E (bind m k).
Proof.
  intros Hm Hk c Hc. specialize (Hm c Hc). unfold bind.
  destruct (m c) as [[[a|e] c1] t1]; cbn [final events fst snd] in *.
  - destruct Hm as [Hc1 Ht1]. specialize (Hk a c1 Hc1).
    destruct (k a c1) as [[r c2] t2]; cbn [final events fst snd] in *.
    destruct Hk as [Hc2 Ht2]. split; [exact Hc2 | apply Forall_app; now split].
  - exact Hm.
Qed.

Lemma keeps_bind_lift {A B} (r : result A) (k : A -> M B) :
  (forall a, r = Ok a -> keeps P E (k a)) -> keeps P E (bind (lift r) k).
Proof.
  intros Hk c Hc. unfold bind, lift. destruct r as [a|e].
  - specialize (Hk a eq_refl c Hc).
    destruct (k a c) as [[r c2] t2]; cbn [final events fst snd] in *. exact Hk.
  - split; [exact Hc | constructor].
Qed.

Lemma keeps_bind_gets {A B} (f : colls -> A) (k : A -> M B) :
  (forall c0, P c0 -> keeps P E (k (f c0))) -> keeps P E (bind (gets f) k).
Proof.
  intros Hk c Hc. unfold bind, gets. specialize (Hk c Hc c Hc).
  destruct (k (f c) c) as [[r c2] t2]; cbn [final events fst snd] in *. exact Hk.
Qed.

Lemma keeps_when (b : bool) (m : M unit) :
  keeps P E m -> keeps P E (when b m).
Proof. destruct b; [trivial | intros _; apply keeps_ret]. Qed.

Lemma keeps_try_except {A} (m : M A) (e : exn) (h : M A) :
  keeps P E m -> keeps P E h -> keeps P E (try_except m e h).
Proof.
  intros Hm Hh c Hc. specialize (Hm c Hc). unfold try_except.
  destruct (m c) as [[[a|e'] c1] t1]; cbn [final events fst snd] in *.
  - exact Hm.
  - destruct (exn_eqb e e'); [|exact Hm].
    destruct Hm as [Hc1 Ht1]. specialize (Hh c1 Hc1).
    destruct (h c1) as [[r c2] t2]; cbn [final events fst snd] in *.
    destruct Hh as [Hc2 Ht2]. split; [exact Hc2 | apply Forall_app; now split].
Qed.

Lemma keeps_for_ {A} (body : A -> M unit) (l : list A) :
  (forall x, keeps P E (body x)) -> keeps P E (for_ body l).
Proof.
  intros Hb. induction l as [|x l IH]; cbn [for_].
  - apply keeps_ret.
  - apply keeps_bind; [apply Hb | intros ?; exact IH].
Qed.

Lemma keeps_for_each {A} (body : A -> M ctl) (l : list A) :
  (forall x, keeps P E (body x)) -> keeps P E (for_each body l).
Proof.
  intros Hb. induction l as [|x l IH]; cbn [for_each].
  - apply keeps_ret.
  - apply keeps_bind; [apply Hb | intros [|]; [exact IH | apply keeps_ret]].
Qed.

End Keeps.

(** ** The extraction loop *)

Lemma has_digit_search (url : string) :
  Str.has_digit url = false <-> Str.re_search_digits url = None.
Proof.
  unfold Str.has_digit, Str.re_search_digits.
  induction (Str.chars url) as [|c l IH]; cbn [existsb Str.search_digits].
  - tauto.
  - destruct (Str.is_digit c); cbn [orb]; [split; discriminate | exact IH].
Qed.

(** C8.  On a relevant log entry whose response URL has no digit, the
    extraction of the identifier raises ([AttributeError], from calling
    [group] on the [None] that [re.search] returned): no identifier is
    produced, the loop stops there, nothing is fetched or recorded. *)
Theorem extraction_raises_without_digits
    (log : json) (url : string) (rest : list json) (c : colls) :
  log_filter log = Ok true ->
  response_field log "url" = Ok (JStr url) ->
  Str.has_digit url = false ->
  Py.search_digits_group (JStr url) = Raise AttributeError
  /\ extract_entry log c = (Raise AttributeError, c, [])
  /\ extract_loop (log :: rest) c = (Raise AttributeError, c, []).
Proof.
  intros Hrel Hurl Hdig.
  apply has_digit_search in Hdig.
  assert (Hgroup : Py.search_digits_group (JStr url) = Raise AttributeError)
    by (simpl; now rewrite Hdig).
  assert (Hentry : extract_entry log c = (Raise AttributeError, c, [])).
  { unfold extract_entry, bind, lift. rewrite Hurl, Hgroup. reflexivity. }
  repeat split; trivial.
  cbn [extract_loop]. unfold bind at 1. unfold lift at 1. rewrite Hrel.
  unfold bind at 1. cbn [when]. rewrite Hentry. reflexivity.
Qed.

(** What [extract_entry] does on a blocked identifier. *)
Lemma extract_entry_blocked (log : json) (url doctor_id : string) (c : colls) :
  response_field log "url" = Ok (JStr url) ->
  Str.re_search_digits url = Some doctor_id ->
  Str.contains doctor_id (blocked_doctor_ids cfg) = true ->
  extract_entry log c =
    (Ok tt, c, [Log Warning ("Skipping blocked doctor_id " ++ doctor_id) []; Sleep 1]).
Proof.
  intros Hurl Hid Hblocked.
  unfold extract_entry, bind, lift. rewrite Hurl. cbn [Py.search_digits_group].
  rewrite Hid, Hblocked. reflexivity.
Qed.

(** What [extract_entry] does on a provider that takes appointments. *)
Lemma extract_entry_valid
    (log : json) (url doctor_id : string) (data : json)
    (fields : list (string * json))
    (visit_motive_id agenda_ids agenda_id practice_ids practice_id : json)
    (c : colls) :
  response_field log "url" = Ok (JStr url) ->
  Str.re_search_digits url = Some doctor_id ->
  Str.contains doctor_id (blocked_doctor_ids cfg) = false ->
  requests_get w url = Ok data ->
  Py.getitem data "search_result" = Ok (JObj fields) ->
  Py.assoc "visit_motive_id" fields = Some visit_motive_id ->
  Py.assoc "agenda_ids" fields = Some agenda_ids ->
  Py.getitem0 agenda_ids = Ok agenda_id ->
  Py.assoc "practice_ids" fields = Some practice_ids ->
  Py.getitem0 practice_ids = Ok practice_id ->
  extract_entry log c =
    (Ok tt,
     mkColls
       (doctor_info c
        ++ [(doctor_id, availability_link visit_motive_id agenda_id practice_id)])%list
       (invalid_doctor_ids c) (imminent_slots c),
     [HttpGet url; Log Debug "resp_url:" [url]; Sleep 1]).
Proof.
  intros Hurl Hid Hfree Hget Hsr Hvm Hag Hag0 Hpr Hpr0.
  unfold extract_entry, bind, lift. rewrite Hurl. cbn [Py.search_digits_group].
  rewrite Hid, Hfree.
  cbn [requests_get_json]. unfold bind, lift, emit. rewrite Hget.
  unfold search_result_field. rewrite Hsr.
  cbn [Py.contains rbind Py.getitem]. rewrite Hvm, Hag, Hpr. cbn [negb].
  rewrite Hag0, Hpr0. reflexivity.
Qed.

Lemma extract_entry_unblocked (log : json) :
  keeps unblocked_records unblocked_request (extract_entry log).
Proof.
  unfold extract_entry.
  apply keeps_bind_lift; intros resp_url ?.
  apply keeps_bind_lift; intros doctor_id Hid.
  apply keeps_bind; [|intros ?; apply keeps_emit; intros u Hu; discriminate].
  destruct (Str.contains doctor_id (blocked_doctor_ids cfg)) eqn:Hfree.
  { apply keeps_emit; intros u Hu; discriminate. }
  destruct resp_url as [| | |url| |]; try discriminate Hid.
  cbn [Py.search_digits_group] in Hid.
  destruct (Str.re_search_digits url) as [d|] eqn:Hd; [|discriminate].
  injection Hid as ->.
  apply keeps_bind.
  { cbn [requests_get_json]. apply keeps_bind; [|intros ?; apply keeps_lift].
    apply keeps_emit. intros u Hu. injection Hu as <-. eauto. }
  intros data.
  apply keeps_bind; [apply keeps_emit; intros u Hu; discriminate|]. intros ?.
  apply keeps_bind_lift; intros sr _.
  apply keeps_bind_lift; intros has_motive _.
  destruct (negb has_motive).
  - apply keeps_bind; [apply keeps_emit; intros u Hu; discriminate|]. intros ?.
    apply keeps_modify. intros c Hc. exact Hc.
  - repeat (apply keeps_bind_lift; intros ? ?).
    apply keeps_modify. intros c Hc id link Hin. cbn [doctor_info] in Hin.
    apply in_app_or in Hin. destruct Hin as [Hin|[Hin|[]]].
    + eapply Hc, Hin.
    + injection Hin as <- _. exact Hfree.
Qed.

Lemma extract_loop_unblocked (logs : list json) :
  keeps unblocked_records unblocked_request (extract_loop logs).
Proof.
  induction logs as [|log logs IH]; cbn [extract_loop].
  - apply keeps_ret.
  - apply keeps_bind_lift; intros relevant _.
    apply keeps_bind; [|intros ?; exact IH].
    apply keeps_when, extract_entry_unblocked.
Qed.

(** C6.  On a log entry whose extracted identifier occurs in
    [blocked_doctor_ids], the loop body emits the warning and the courtesy
    pause and nothing else, leaving the collections as they were; and in no
    run of the extraction loop of a cycle is that URL requested or a record
    made for that identifier. *)
Theorem blocked_provider_skipped
    (log : json) (url doctor_id : string) (c : colls) :
  response_field log "url" = Ok (JStr url) ->
  Str.re_search_digits url = Some doctor_id ->
  Str.substring_of doctor_id (blocked_doctor_ids cfg) ->
  extract_entry log c =
    (Ok tt, c, [Log Warning ("Skipping blocked doctor_id " ++ doctor_id) []; Sleep 1])
  /\ forall logs,
       ~ In (HttpGet url) (events (extract_loop logs empty_colls))
       /\ forall link,
            ~ In (doctor_id, link) (doctor_info (final (extract_loop logs empty_colls))).
Proof.
  intros Hurl Hid Hblocked. apply contains_substring_of in Hblocked.
  split; [now apply extract_entry_blocked with (url := url)|].
  intros logs.
  destruct (extract_loop_unblocked logs empty_colls) as [Hrec Hreq].
  { intros id link []. }
  split.
  - intros Hin. rewrite Forall_forall in Hreq.
    destruct (Hreq _ Hin url eq_refl) as (d & Hd & Hfree). congruence.
  - intros link Hin. specialize (Hrec _ _ Hin). congruence.
Qed.

(** The record of line 157: for a provider that is not blocked and whose
    search result carries [visit_motive_id], the loop body appends one
    record whose link has [start_date] set to [current_date], the
    [visit_motive_id] found, the first [agenda_ids] and [practice_ids]
    elements, and [limit=15]. *)
Theorem availability_query_url_built
    (log : json) (url doctor_id : string) (data : json)
    (fields : list (string * json))
    (visit_motive_id agenda_ids agenda_id practice_ids practice_id : json)
    (c : colls) :
  response_field log "url" = Ok (JStr url) ->
  Str.re_search_digits url = Some doctor_id ->
  ~ Str.substring_of doctor_id (blocked_doctor_ids cfg) ->
  requests_get w url = Ok data ->
  Py.getitem data "search_result" = Ok (JObj fields) ->
  Py.assoc "visit_motive_id" fields = Some visit_motive_id ->
  Py.assoc "agenda_ids" fields = Some agenda_ids ->
  Py.getitem0 agenda_ids = Ok agenda_id ->
  Py.assoc "practice_ids" fields = Some practice_ids ->
  Py.getitem0 practice_ids = Ok practice_id ->
  let record :=
    (doctor_id,
     "https://www.doctolib.fr/availabilities.json?start_date=" ++ current_date cfg
     ++ "&visit_motive_ids=" ++ format_value visit_motive_id
     ++ "&agenda_ids=" ++ format_value agenda_id
     ++ "&practice_ids=" ++ format_value practice_id
     ++ "&limit=15") in
  outcome (extract_entry log c) = Ok tt
  /\ doctor_info (final (extract_entry log c)) = (doctor_info c ++ [record])%list.
Proof.
  intros Hurl Hid Hfree Hget Hsr Hvm Hag Hag0 Hpr Hpr0 record.
  apply contains_false_iff in Hfree.
  rewrite (extract_entry_valid log url doctor_id data fields
             visit_motive_id agenda_ids agenda_id practice_ids practice_id c)
    by assumption.
  split; reflexivity.
Qed.

(** ** The availability loop *)

Lemma for_each_stops {A} (body : A -> M ctl) (x : A) (pre post : list A) :
  (forall c, outcome (body x c) <> Ok Next) ->
  forall c, for_each body (pre ++ x :: post)%list c = for_each body (pre ++ [x])%list c.
Proof.
  intros Hx. induction pre as [|y pre IH]; intros c; cbn [app for_each].
  - unfold bind. specialize (Hx c).
    destruct (body x c) as [[[[|]|e] c1] t1]; cbn in Hx; congruence.
  - unfold bind. destruct (body y c) as [[[[|]|e] c1] t1]; trivial.
    now rewrite IH.
Qed.

Lemma get_doctor_name_run (doctor_id : string) (c : colls) :
  get_doctor_name doctor_id c =
    (Ok (find_element w (name_xpath doctor_id)), c,
     FindElement (name_xpath doctor_id) :: name_miss doctor_id).
Proof.
  unfold get_doctor_name, name_miss, bind, emit.
  destruct (find_element w (name_xpath doctor_id)); reflexivity.
Qed.

Lemma resolve_provider_none_listed
    (doctor_id link : string) (data total availabilities : json) (c : colls) :
  requests_get w link = Ok data ->
  Py.getitem data "total" = Ok total ->
  Py.gt0 total = Ok true ->
  Py.getitem data "availabilities" = Ok availabilities ->
  Py.len availabilities = Ok 0%nat ->
  resolve_provider (doctor_id, link) c = (Ok Break, c, aborted_trace doctor_id link).
Proof.
  intros Hget Htotal Hpos Hav Hlen.
  unfold resolve_provider. cbn [requests_get_json].
  unfold bind at 1. unfold bind at 1. unfold emit, lift. rewrite Hget.
  unfold bind at 1. rewrite Htotal. unfold bind at 1. rewrite Hpos.
  unfold resolve_imminent. unfold bind at 1. rewrite get_doctor_name_run.
  unfold bind, emit, lift. rewrite Hav. cbv beta iota. rewrite Hlen.
  cbv beta iota. cbn [Nat.leb ret].
  unfold aborted_trace. cbn [app]. reflexivity.
Qed.

(** C2.  When a provider's response has [total > 0] and an empty
    [availabilities], its turn ends the loop with the error logged: the
    providers after it are not fetched, looked up or printed, and the loop
    runs as if they were not in the list. *)
Theorem empty_availabilities_abort_cycle
    (doctor_id link : string) (data total availabilities : json) :
  requests_get w link = Ok data ->
  Py.getitem data "total" = Ok total ->
  Py.gt0 total = Ok true ->
  Py.getitem data "availabilities" = Ok availabilities ->
  Py.len availabilities = Ok 0%nat ->
  (forall post c,
      for_each resolve_provider ((doctor_id, link) :: post) c
      = (Ok tt, c, aborted_trace doctor_id link))
  /\ In (Log Error "No valid appointments found!" []) (aborted_trace doctor_id link)
  /\ (forall pre post c,
        for_each resolve_provider (pre ++ (doctor_id, link) :: post)%list c
        = for_each resolve_provider (pre ++ [(doctor_id, link)])%list c)
  /\ (forall pre post c,
        doctor_info c = (pre ++ (doctor_id, link) :: post)%list ->
        resolve c = for_each resolve_provider (pre ++ [(doctor_id, link)])%list c).
Proof.
  intros Hget Htotal Hpos Hav Hlen.
  assert (Hstep : forall c, resolve_provider (doctor_id, link) c
                            = (Ok Break, c, aborted_trace doctor_id link))
    by (intros c; eapply resolve_provider_none_listed; eassumption).
  assert (Hloop : forall pre post c,
             for_each resolve_provider (pre ++ (doctor_id, link) :: post)%list c
             = for_each resolve_provider (pre ++ [(doctor_id, link)])%list c).
  { intros pre post. apply for_each_stops. intros c. rewrite Hstep. discriminate. }
  repeat split.
  - intros post c. cbn [for_each]. unfold bind. rewrite Hstep.
    cbn [ret]. now rewrite app_nil_r.
  - unfold aborted_trace. rewrite !in_app_iff. right. right. simpl. tauto.
  - exact Hloop.
  - intros pre post c Hinfo. unfold resolve, bind, gets. rewrite Hinfo.
    assert (Hlen' : (0 <? List.length (pre ++ (doctor_id, link) :: post)%list)%nat = true).
    { apply Nat.ltb_lt. rewrite length_app. simpl. lia. }
    rewrite Hlen'. rewrite Hloop.
    destruct (for_each resolve_provider (pre ++ [(doctor_id, link)])%list c)
      as [[r c'] t]. reflexivity.
Qed.

Lemma split_T_truthy (v : json) (parts : string * string) :
  Py.split_T v = Ok parts -> Py.truthy v = true.
Proof.
  destruct v as [| | |s| |]; try discriminate.
  destruct s; [discriminate | reflexivity].
Qed.

Lemma faraway_line_recognised (date time : string) :
  is_faraway (Print (faraway_line date time)) = true.
Proof. reflexivity. Qed.

Lemma resolve_provider_zero_total
    (doctor_id link : string) (data : json) (c : colls) :
  requests_get w link = Ok data ->
  Py.getitem data "total" = Ok (JNum 0) ->
  resolve_provider (doctor_id, link) c =
    match resolve_faraway link data c with
    | (r, c', t) => (r, c', HttpGet link :: t)
    end.
Proof.
  intros Hget Htotal. unfold resolve_provider. cbn [requests_get_json].
  unfold bind at 1. unfold bind at 1. unfold emit, lift. rewrite Hget.
  unfold bind at 1. rewrite Htotal. unfold bind at 1. cbn [Py.gt0 Z.ltb Z.compare].
  destruct (resolve_faraway link data c) as [[r c'] t]. reflexivity.
Qed.

(** C5, as the code has it.  For a response with [total == 0]: with
    [--imminent] nothing is printed whatever [next_slot] is; without it, a
    missing [next_slot] and a [next_slot] that is null or empty pass in
    silence, and a [next_slot] that splits on [T] into a date and a time
    the library reads prints exactly one faraway line. *)
Theorem faraway_slot_reporting
    (doctor_id link : string) (data : json) (c : colls) :
  requests_get w link = Ok data ->
  Py.getitem data "total" = Ok (JNum 0) ->
  let run := resolve_provider (doctor_id, link) c in
  (imminent cfg = true -> run = (Ok Next, c, [HttpGet link]))
  /\ (imminent cfg = false ->
      Py.getitem data "next_slot" = Raise KeyError ->
      run = (Ok Next, c, [HttpGet link]))
  /\ (imminent cfg = false ->
      forall next_slot,
        Py.getitem data "next_slot" = Ok next_slot ->
        Py.truthy next_slot = false ->
        run = (Ok Next, c, [HttpGet link]))
  /\ (imminent cfg = false ->
      forall next_slot date_str time_str date_obj time_obj,
        Py.getitem data "next_slot" = Ok next_slot ->
        Py.split_T next_slot = Ok (date_str, time_str) ->
        fromisoformat lib date_str = Some date_obj ->
        strptime lib time_str "%H:%M:%S.%f%z" = Some time_obj ->
        run = (Ok Next, c,
               [HttpGet link; Log Info "Analyzing" [link];
                Print (faraway_line (strftime lib date_obj DATE_FORMAT)
                                    (strftime lib time_obj TIME_FORMAT))])
        /\ List.length (filter is_faraway (events run)) = 1%nat).
Proof.
  intros Hget Htotal run. subst run.
  rewrite (resolve_provider_zero_total doctor_id link data c Hget Htotal).
  unfold resolve_faraway. split; [|split; [|split]].
  - intros ->. reflexivity.
  - intros -> Hns. cbn [negb]. unfold try_except, bind, lift. rewrite Hns.
    reflexivity.
  - intros -> ns Hns Hfalsy. cbn [negb]. unfold try_except, bind, lift.
    rewrite Hns. cbv beta iota. rewrite Hfalsy. reflexivity.
  - intros -> next_slot date_str time_str date_obj time_obj Hns Hsplit Hdate Htime.
    assert (Hrun :
      (if negb false
       then
         try_except
           (next_slot <- lift (Py.getitem data "next_slot") ;;
            if Py.truthy next_slot
            then
              emit (Log Info "Analyzing" [link]) ;;
              next_slot <- lift (Py.getitem data "next_slot") ;;
              shown <- read_timestamp next_slot ;;
              emit (Print (faraway_line (fst shown) (snd shown))) ;;
              ret Next
            else ret Next)
           KeyError (ret Next)
       else ret Next) c
      = (Ok Next, c,
         [Log Info "Analyzing" [link];
          Print (faraway_line (strftime lib date_obj DATE_FORMAT)
                              (strftime lib time_obj TIME_FORMAT))])).
    { cbn [negb]. unfold try_except, read_timestamp, bind, lift, emit.
      rewrite Hns. cbv beta iota. rewrite (split_T_truthy _ _ Hsplit).
      rewrite Hsplit. cbn [fst snd]. rewrite Hdate, Htime. reflexivity. }
    rewrite Hrun. split; [reflexivity|].
    cbn [events snd filter]. rewrite faraway_line_recognised. reflexivity.
Qed.

(** ** Without [--email] *)

Ltac keeps_step :=
  lazymatch goal with
  | |- keeps _ _ (ret _) => apply keeps_ret
  | |- keeps _ _ (lift _) => apply keeps_lift
  | |- keeps _ _ (gets _) => apply keeps_gets
  | |- keeps _ _ (emit _) => apply keeps_emit; reflexivity
  | |- keeps _ _ (modify _) =>
      apply keeps_modify; let c := fresh "c" in let H := fresh "H" in
                          intros c H; exact H
  | |- keeps _ _ (bind _ _) => apply keeps_bind; [|intros ?]
  | |- keeps _ _ (when _ _) => apply keeps_when
  | |- keeps _ _ (try_except _ _ _) => apply keeps_try_except
  | |- keeps _ _ (for_ _ _) => apply keeps_for_; intros ?
  | |- keeps _ _ (for_each _ _) => apply keeps_for_each; intros ?
  | |- keeps _ _ (if ?b then _ else _) => destruct b
  | |- keeps _ _ (match ?x with _ => _ end) => destruct x
  end.

Lemma extract_loop_keeps_no_slot (logs : list json) :
  keeps no_slot_kept not_email (extract_loop logs).
Proof.
  induction logs as [|log logs IH]; cbn [extract_loop].
  - apply keeps_ret.
  - apply keeps_bind; [apply keeps_lift | intros relevant].
    apply keeps_bind; [|intros ?; exact IH].
    apply keeps_when.
    unfold extract_entry, requests_get_json, append_invalid, append_doctor_info.
    repeat keeps_step.
Qed.

Lemma report_invalid_keeps_no_slot : keeps no_slot_kept not_email report_invalid.
Proof. unfold report_invalid. repeat keeps_step. Qed.

Lemma resolve_keeps_no_slot :
  email cfg = false -> keeps no_slot_kept not_email resolve.
Proof.
  intros Hemail.
  assert (Hslot : forall name slot, keeps no_slot_kept not_email (report_slot name slot)).
  { intros name slot. unfold report_slot, read_timestamp. rewrite Hemail.
    cbn [when]. repeat keeps_step. }
  unfold resolve. apply keeps_bind; [apply keeps_gets | intros info].
  destruct (0 <? List.length info)%nat; [|repeat keeps_step].
  apply keeps_for_each. intros [doctor_id link].
  unfold resolve_provider, requests_get_json.
  apply keeps_bind; [repeat keeps_step | intros data].
  apply keeps_bind; [repeat keeps_step | intros total].
  apply keeps_bind; [repeat keeps_step | intros [|]].
  - unfold resolve_imminent, get_doctor_name. cbv zeta.
    apply keeps_bind; [repeat keeps_step | intros doctor_name].
    do 4 (apply keeps_bind; [repeat keeps_step | intros ?]).
    destruct (_ <=? 0)%nat; [repeat keeps_step|].
    do 2 (apply keeps_bind; [repeat keeps_step | intros ?]).
    apply keeps_bind; [|intros ?; apply keeps_ret].
    apply keeps_for_. intros availability. unfold report_availability.
    do 2 (apply keeps_bind; [repeat keeps_step | intros ?]).
    apply keeps_for_. intros slot. apply Hslot.
  - unfold resolve_faraway, read_timestamp. repeat keeps_step.
Qed.

Lemma main_fresh (logs : list json) (c : colls) :
  main logs c = main logs empty_colls.
Proof. reflexivity. Qed.

Lemma no_email_filter (t : list event) :
  Forall not_email t -> filter is_email t = [].
Proof.
  induction 1 as [|e t He _ IH]; [reflexivity|].
  cbn [filter]. unfold not_email in He. now rewrite He.
Qed.

(** C10.  Without [--email], whatever the log and the answers, a cycle ends
    with [imminent_slots] empty and hands no message to [email_alert]. *)
Theorem no_email_without_flag (logs : list json) (c : colls) :
  email cfg = false ->
  imminent_slots (final (main logs c)) = []
  /\ filter is_email (events (main logs c)) = [].
Proof.
  intros Hemail. rewrite main_fresh.
  assert (Hmain : keeps no_slot_kept not_email (main logs)).
  { unfold main, fresh_collections.
    apply keeps_bind; [apply keeps_modify; reflexivity | intros ?].
    apply keeps_bind; [apply extract_loop_keeps_no_slot | intros ?].
    apply keeps_bind; [apply report_invalid_keeps_no_slot | intros ?].
    apply keeps_bind; [now apply resolve_keeps_no_slot | intros ?].
    apply keeps_bind_gets. intros c0 Hc0. rewrite Hc0.
    apply keeps_bind; [apply keeps_ret | intros ?].
    do 2 (apply keeps_bind; [repeat keeps_step | intros ?]).
    generalize (Z.to_nat (DELAY cfg)). intros n.
    induction n as [|n IH]; cbn [countdown]; repeat keeps_step. exact IH. }
  destruct (Hmain empty_colls eq_refl) as [Hslots Hevents].
  split; [exact Hslots | now apply no_email_filter].
Qed.

(** ** The e-mail report *)

(** C1.  A record as lines 191 and 193 build it holds its date and its time
    in set displays, which cannot be indexed: on a batch that starts with
    such a record [check_imminent_slots] raises [TypeError] at line 95 or 97
    before any line of the body is written, and no message is sent. *)
Theorem slot_record_breaks_message
    (date time : string) (doctor_name : option string)
    (rest : list (list pyval)) (c : colls) :
  check_imminent_slots (slot_record date time doctor_name :: rest) c
  = (Raise TypeError, c, []).
Proof.
  unfold check_imminent_slots, slot_record.
  destruct (known_name doctor_name); reflexivity.
Qed.

(** ** Cycle after cycle *)

Lemma scheduler_cycles (n : nat) (logs : list json) :
  forall c i t,
    nth_error (scheduler n logs c) i = Some t ->
    t = events (main logs empty_colls).
Proof.
  induction n as [|n IH]; intros c i t; cbn [scheduler].
  - destruct i; discriminate.
  - rewrite (main_fresh logs c).
    destruct (main logs empty_colls) as [[[u|e] c'] t0] eqn:Hm; cbn [events snd].
    + destruct i as [|i]; cbn [nth_error].
      * now intros [= <-].
      * intros Hi. now rewrite (IH _ _ _ Hi).
    + destruct i as [|[|i]]; cbn [nth_error]; try discriminate.
      now intros [= <-].
Qed.

(** C9.  Two consecutive cycles run on the same log with the same answers
    put the same output on the console: [main] starts from fresh
    collections whatever the previous cycle left behind. *)
Theorem consecutive_cycles_identical
    (n : nat) (logs : list json) (c : colls) (i : nat) (t1 t2 : list event) :
  nth_error (scheduler n logs c) i = Some t1 ->
  nth_error (scheduler n logs c) (S i) = Some t2 ->
  console (loglevel cfg) t1 = console (loglevel cfg) t2
  /\ forall left_over, main logs left_over = main logs empty_colls.
Proof.
  intros H1 H2. split.
  - now rewrite (scheduler_cycles _ _ _ _ _ H1), (scheduler_cycles _ _ _ _ _ H2).
  - intros left_over. apply main_fresh.
Qed.

(** ** Further properties of the extraction loop *)

(** X1.  An entry whose method is not ["Network.responseReceived"] is
    rejected without its [params] being read, so an entry that has none does
    not raise; an entry with the method but whose response lacks a field
    makes the filter raise, and the extraction loop stops there. *)
Theorem log_filter_reads_params_lazily (log_ : json) :
  (forall method,
      Py.getitem log_ "method" = Ok method ->
      Py.eq_str method "Network.responseReceived" = false ->
      log_filter log_ = Ok false)
  /\ (forall e rest c,
        Py.getitem log_ "method" = Ok (JStr "Network.responseReceived") ->
        response_field log_ "mimeType" = Raise e ->
        log_filter log_ = Raise e
        /\ extract_loop (log_ :: rest) c = (Raise e, c, [])).
Proof.
  split.
  - intros method Hm Hne. unfold log_filter. rewrite Hm. cbn [rbind].
    rewrite Hne. reflexivity.
  - intros e rest c Hm Hmime.
    assert (Hf : log_filter log_ = Raise e).
    { unfold log_filter. rewrite Hm. cbn [rbind Py.eq_str].
      rewrite Hmime. reflexivity. }
    split; [exact Hf|].
    cbn [extract_loop]. unfold bind, lift. rewrite Hf. reflexivity.
Qed.

Lemma extract_entry_unblocked_run
    (log : json) (url doctor_id : string) (c : colls) :
  response_field log "url" = Ok (JStr url) ->
  Str.re_search_digits url = Some doctor_id ->
  Str.contains doctor_id (blocked_doctor_ids cfg) = false ->
  extract_entry log c =
    match requests_get w url with
    | Raise e => (Raise e, c, [HttpGet url])
    | Ok data =>
        match
          (sr <- lift (Py.getitem data "search_result") ;;
           has_motive <- lift (Py.contains "visit_motive_id" sr) ;;
           if negb has_motive
           then
             emit (Log Error "Invalid data or doctor does not take new appointments" []) ;;
             append_invalid doctor_id
           else
             visit_motive_id <- lift (search_result_field data "visit_motive_id") ;;
             agenda_ids <- lift (search_result_field data "agenda_ids") ;;
             agenda_id <- lift (Py.getitem0 agenda_ids) ;;
             practice_ids <- lift (search_result_field data "practice_ids") ;;
             practice_id <- lift (Py.getitem0 practice_ids) ;;
             append_doctor_info
               (doctor_id, availability_link visit_motive_id agenda_id practice_id)) c
        with
        | (Ok _, c', t) =>
            (Ok tt, c', HttpGet url :: Log Debug "resp_url:" [url] :: t ++ [Sleep 1])%list
        | (Raise e, c', t) =>
            (Raise e, c', HttpGet url :: Log Debug "resp_url:" [url] :: t)
        end
    end.
Proof.
  intros Hurl Hid Hfree.
  unfold extract_entry. unfold bind at 1. unfold lift at 1. rewrite Hurl.
  unfold bind at 1. unfold lift at 1. cbn [Py.search_digits_group]. rewrite Hid.
  rewrite Hfree. cbn [requests_get_json format_value].
  unfold bind at 1. unfold bind at 1. unfold bind at 1.
  unfold emit at 1. unfold lift at 1.
  destruct (requests_get w url) as [data|e]; [|reflexivity].
  unfold bind at 1. unfold emit at 1.
  match goal with
  | |- context [match ?m c with _ => _ end] => destruct (m c) as [[[u|e] c'] t]
  end; reflexivity.
Qed.

(** X2.  A provider whose [search_result] has no [visit_motive_id] is put on
    [invalid_doctor_ids] with an error logged; no record is made for it, and
    the pause is still observed. *)
Theorem provider_without_motive_is_invalid
    (log : json) (url doctor_id : string) (data search_result : json) (c : colls) :
  response_field log "url" = Ok (JStr url) ->
  Str.re_search_digits url = Some doctor_id ->
  ~ Str.substring_of doctor_id (blocked_doctor_ids cfg) ->
  requests_get w url = Ok data ->
  Py.getitem data "search_result" = Ok search_result ->
  Py.contains "visit_motive_id" search_result = Ok false ->
  extract_entry log c =
    (Ok tt,
     mkColls (doctor_info c) (invalid_doctor_ids c ++ [doctor_id])%list (imminent_slots c),
     [HttpGet url; Log Debug "resp_url:" [url];
      Log Error "Invalid data or doctor does not take new appointments" [];
      Sleep 1]).
Proof.
  intros Hurl Hid Hfree Hget Hsr Hno. apply contains_false_iff in Hfree.
  rewrite (extract_entry_unblocked_run log url doctor_id c Hurl Hid Hfree), Hget.
  unfold bind, lift. rewrite Hsr, Hno. reflexivity.
Qed.

(** X3.  With [visit_motive_id] present, a missing or empty [agenda_ids] is
    not caught: the exception leaves the loop with nothing recorded and no
    pause, after the request was made. *)
Theorem missing_agenda_raises
    (log : json) (url doctor_id : string) (data search_result visit_motive_id : json)
    (e : exn) (rest : list json) (c : colls) :
  log_filter log = Ok true ->
  response_field log "url" = Ok (JStr url) ->
  Str.re_search_digits url = Some doctor_id ->
  ~ Str.substring_of doctor_id (blocked_doctor_ids cfg) ->
  requests_get w url = Ok data ->
  Py.getitem data "search_result" = Ok search_result ->
  Py.contains "visit_motive_id" search_result = Ok true ->
  Py.getitem search_result "visit_motive_id" = Ok visit_motive_id ->
  (agenda_ids <-r Py.getitem search_result "agenda_ids" ; Py.getitem0 agenda_ids)
  = Raise e ->
  extract_loop (log :: rest) c
  = (Raise e, c, [HttpGet url; Log Debug "resp_url:" [url]]).
Proof.
  intros Hrel Hurl Hid Hfree Hget Hsr Hhas Hvm Hag. apply contains_false_iff in Hfree.
  cbn [extract_loop]. unfold bind at 1. unfold lift at 1. rewrite Hrel.
  unfold bind at 1. cbn [when].
  rewrite (extract_entry_unblocked_run log url doctor_id c Hurl Hid Hfree), Hget.
  unfold search_result_field, bind, lift. rewrite Hsr, Hhas.
  cbn [negb rbind]. rewrite Hvm.
  destruct (Py.getitem search_result "agenda_ids") as [agenda_ids|e'];
    cbn [rbind] in Hag.
  - rewrite Hag. reflexivity.
  - injection Hag as ->. reflexivity.
Qed.

Lemma substring_of_trans (a b c0 : string) :
  Str.substring_of a b -> Str.substring_of b c0 -> Str.substring_of a c0.
Proof.
  intros (p1 & q1 & ->) (p2 & q2 & ->).
  exists (p2 ++ p1), (q1 ++ q2).
  induction p2 as [|ch p2 IH]; cbn [String.append].
  - induction p1 as [|ch p1 IH1]; cbn [String.append].
    + induction a as [|ch a IHa]; cbn [String.append]; [reflexivity|].
      now rewrite IHa.
    + now rewrite IH1.
  - now rewrite IH.
Qed.

Lemma re_search_digits_nonempty (url doctor_id : string) :
  Str.re_search_digits url = Some doctor_id -> doctor_id <> EmptyString.
Proof.
  unfold Str.re_search_digits.
  induction (Str.chars url) as [|c l IH]; cbn [Str.search_digits]; [discriminate|].
  destruct (Str.is_digit c); [intros [= <-]; discriminate | exact IH].
Qed.

Lemma contains_empty_hay (needle : string) :
  needle <> EmptyString -> Str.contains needle EmptyString = false.
Proof. destruct needle; [congruence | reflexivity]. Qed.

(** X4.  Blocking is decided by substring: an identifier is skipped exactly
    when it occurs in [blocked_doctor_ids], so an identifier that occurs
    inside a longer blocked one is skipped too, and an empty
    [blocked_doctor_ids] skips nobody; a provider that is not skipped is
    requested first. *)
Theorem blocked_by_substring
    (log : json) (url doctor_id : string) (c : colls) :
  response_field log "url" = Ok (JStr url) ->
  Str.re_search_digits url = Some doctor_id ->
  let first := hd_error (events (extract_entry log c)) in
  let skipped := Some (Log Warning ("Skipping blocked doctor_id " ++ doctor_id) []) in
  (first = skipped <-> Str.substring_of doctor_id (blocked_doctor_ids cfg))
  /\ (first = Some (HttpGet url) <-> ~ Str.substring_of doctor_id (blocked_doctor_ids cfg))
  /\ (forall longer,
        Str.substring_of doctor_id longer ->
        Str.substring_of longer (blocked_doctor_ids cfg) ->
        first = skipped)
  /\ (blocked_doctor_ids cfg = EmptyString -> first = Some (HttpGet url)).
Proof.
  intros Hurl Hid first skipped.
  assert (Hblocked : Str.substring_of doctor_id (blocked_doctor_ids cfg) -> first = skipped).
  { intros H. apply contains_substring_of in H. subst first.
    now rewrite (extract_entry_blocked log url doctor_id c Hurl Hid H). }
  assert (Hfree : ~ Str.substring_of doctor_id (blocked_doctor_ids cfg) ->
                  first = Some (HttpGet url)).
  { intros H. apply contains_false_iff in H. subst first.
    rewrite (extract_entry_unblocked_run log url doctor_id c Hurl Hid H).
    destruct (requests_get w url) as [data|e]; [|reflexivity].
    match goal with
    | |- context [match ?m c with _ => _ end] => destruct (m c) as [[[u|e] c'] t]
    end; reflexivity. }
  destruct (Str.contains doctor_id (blocked_doctor_ids cfg)) eqn:E.
  - apply contains_substring_of in E. specialize (Hblocked E).
    split; [split; trivial|]. split; [split|split].
    + intros H. rewrite Hblocked in H. discriminate.
    + intros H. contradiction.
    + trivial.
    + intros Hempty. rewrite Hempty in E. destruct E as (p & q & E).
      exfalso. apply (re_search_digits_nonempty _ _ Hid).
      destruct p; [destruct doctor_id|]; [reflexivity|discriminate|discriminate].
  - apply contains_false_iff in E. specialize (Hfree E).
    split; [split|]. 
    + intros H. rewrite Hfree in H. discriminate.
    + intros H. contradiction.
    + split; [split; trivial|]. split; [|trivial].
      intros longer H1 H2. exfalso. apply E. eapply substring_of_trans; eassumption.
Qed.


Lemma slept_app (a b : list event) : slept (a ++ b)%list = (slept a + slept b)%nat.
Proof.
  induction a as [|e a IH]; [reflexivity|].
  cbn [app slept fold_right]. fold (slept (a ++ b)%list). fold (slept a).
  rewrite IH. destruct e; lia.
Qed.



(** ** Further properties of the availability loop *)

Lemma read_timestamp_pure (stamp : json) (c : colls) :
  read_timestamp stamp c = (timestamp_text stamp, c, []).
Proof.
  unfold read_timestamp, timestamp_text, bind, lift.
  destruct (Py.split_T stamp) as [parts|e]; [|reflexivity]. cbn [rbind].
  destruct (fromisoformat lib (fst parts)); [|reflexivity]. cbn [parsed rbind].
  destruct (strptime lib (snd parts) "%H:%M:%S.%f%z"); reflexivity.
Qed.

Lemma add_slots_nil (c : colls) : add_slots [] c = c.
Proof. destruct c. unfold add_slots. cbn. now rewrite app_nil_r. Qed.

Lemma add_slots_add (a b : list (list pyval)) (c : colls) :
  add_slots b (add_slots a c) = add_slots (a ++ b)%list c.
Proof. unfold add_slots. cbn. now rewrite app_assoc. Qed.

Lemma kept_records_app (name : option string) (a b : list (string * string)) :
  kept_records name (a ++ b)%list = (kept_records name a ++ kept_records name b)%list.
Proof.
  unfold kept_records, slot_records. destruct (email cfg); [apply map_app | reflexivity].
Qed.

Lemma slot_lines_app (a b : list (string * string)) :
  slot_lines (a ++ b)%list = (slot_lines a ++ slot_lines b)%list.
Proof. apply map_app. Qed.

Lemma report_slot_run (name : option string) (slot : json) (shown : string * string)
    (c : colls) :
  timestamp_text slot = Ok shown ->
  report_slot name slot c
  = (Ok tt, add_slots (kept_records name [shown]) c, slot_lines [shown]).
Proof.
  intros H. unfold report_slot, bind. rewrite read_timestamp_pure, H.
  unfold emit, kept_records, append_imminent, modify.
  destruct (email cfg); cbn [when ret]; [reflexivity|].
  now rewrite add_slots_nil.
Qed.


Lemma report_slots_run (name : option string) (slots : list json)
    (shown : list (string * string)) :
  Forall2 (fun slot s => timestamp_text slot = Ok s) slots shown ->
  forall c,
    for_ (report_slot name) slots c
    = (Ok tt, add_slots (kept_records name shown) c, slot_lines shown).
Proof.
  induction 1 as [|slot s slots shown Hs _ IH]; intros c; cbn [for_].
  - unfold ret, kept_records. destruct (email cfg); now rewrite add_slots_nil.
  - unfold bind. rewrite (report_slot_run name slot s c Hs), IH, add_slots_add.
    change (s :: shown) with ([s] ++ shown)%list.
    now rewrite kept_records_app, slot_lines_app.
Qed.


Lemma report_availability_run (name : option string) (day : json)
    (shown : list (string * string)) (c : colls) :
  day_shows day shown ->
  report_availability name day c
  = (Ok tt, add_slots (kept_records name shown) c, slot_lines shown).
Proof.
  intros (slots & Hslots & Hshown).
  unfold report_availability, bind, lift. rewrite Hslots. cbn [Py.iter].
  now rewrite (report_slots_run name slots shown Hshown).
Qed.

Lemma report_days_run (name : option string) (days : list json)
    (shown : list (list (string * string))) :
  Forall2 day_shows days shown ->
  forall c,
    for_ (report_availability name) days c
    = (Ok tt, add_slots (kept_records name (concat shown)) c, slot_lines (concat shown)).
Proof.
  induction 1 as [|day s days shown Hday _ IH]; intros c; cbn [for_ concat].
  - unfold ret, kept_records. destruct (email cfg); now rewrite add_slots_nil.
  - unfold bind. rewrite (report_availability_run name day s c Hday), IH, add_slots_add.
    now rewrite kept_records_app, slot_lines_app.
Qed.

Lemma resolve_provider_positive
    (doctor_id link : string) (data total : json) (days : list json) (c : colls) :
  requests_get w link = Ok data ->
  Py.getitem data "total" = Ok total ->
  Py.gt0 total = Ok true ->
  Py.getitem data "availabilities" = Ok (JArr days) ->
  days <> [] ->
  resolve_provider (doctor_id, link) c =
    match for_ (report_availability (find_element w (name_xpath doctor_id))) days c with
    | (Ok _, c', t) => (Ok Next, c', provider_head doctor_id link ++ t)%list
    | (Raise e, c', t) => (Raise e, c', provider_head doctor_id link ++ t)%list
    end.
Proof.
  intros Hget Htotal Hpos Hav Hdays.
  unfold resolve_provider. cbn [requests_get_json].
  unfold bind at 1. unfold bind at 1. unfold emit, lift. rewrite Hget.
  unfold bind at 1. rewrite Htotal. unfold bind at 1. rewrite Hpos.
  unfold resolve_imminent. unfold bind at 1. rewrite get_doctor_name_run.
  unfold bind, emit, lift. rewrite Hav. cbv beta iota. cbn [Py.len Py.iter].
  destruct days as [|day days]; [congruence|]. cbn [List.length Nat.leb].
  unfold provider_head.
  destruct (for_ (report_availability (find_element w (name_xpath doctor_id)))
              (day :: days) c) as [[[u|e] c'] t];
    cbn [ret app]; rewrite <- ?app_assoc; cbn [app]; rewrite ?app_nil_r;
    rewrite <- ?app_assoc; reflexivity.
Qed.

(** X6.  A provider with a positive [total] whose slots all read is shown
    under one header, labelled [[unknown]] when the name is missing or
    empty, with one line per slot in the order of the response; with
    [--email] one record per slot joins the batch, and the loop goes on to
    the next provider. *)
Theorem slots_reported_in_order
    (doctor_id link : string) (data total : json) (days : list json)
    (shown : list (list (string * string))) (c : colls) :
  requests_get w link = Ok data ->
  Py.getitem data "total" = Ok total ->
  Py.gt0 total = Ok true ->
  Py.getitem data "availabilities" = Ok (JArr days) ->
  days <> [] ->
  Forall2 day_shows days shown ->
  let name := find_element w (name_xpath doctor_id) in
  resolve_provider (doctor_id, link) c
  = (Ok Next,
     add_slots (kept_records name (concat shown)) c,
     provider_head doctor_id link ++ slot_lines (concat shown))%list.
Proof.
  intros Hget Htotal Hpos Hav Hdays Hshown name.
  rewrite (resolve_provider_positive doctor_id link data total days c)
    by assumption.
  now rewrite (report_days_run _ days shown Hshown).
Qed.


(** ** Further properties of the report and of the cycle *)

Lemma slot_record_unreadable (date time : string) (doctor_name : option string) :
  slot_line (slot_record date time doctor_name) = Raise TypeError.
Proof. unfold slot_record. destruct (known_name doctor_name); reflexivity. Qed.

Lemma check_imminent_slots_unreadable (slots : list (list pyval)) :
  Forall (fun record => slot_line record = Raise TypeError) slots ->
  keeps unreadable not_email (check_imminent_slots slots).
Proof.
  intros Hslots c Hc. unfold check_imminent_slots.
  destruct Hslots as [|record slots Hrecord _].
  - split; [exact Hc | constructor].
  - cbn [List.length Nat.ltb Nat.leb compose_message]. rewrite Hrecord.
    split; [exact Hc | constructor].
Qed.

Lemma extract_loop_keeps_unreadable (logs : list json) :
  keeps unreadable not_email (extract_loop logs).
Proof.
  induction logs as [|log logs IH]; cbn [extract_loop].
  - apply keeps_ret.
  - apply keeps_bind; [apply keeps_lift | intros relevant].
    apply keeps_bind; [|intros ?; exact IH].
    apply keeps_when.
    unfold extract_entry, requests_get_json, append_invalid, append_doctor_info.
    repeat keeps_step.
Qed.

Lemma resolve_keeps_unreadable : keeps unreadable not_email resolve.
Proof.
  assert (Hslot : forall name slot, keeps unreadable not_email (report_slot name slot)).
  { intros name slot. unfold report_slot, read_timestamp.
    apply keeps_bind; [repeat keeps_step | intros shown].
    apply keeps_bind; [repeat keeps_step | intros ?].
    apply keeps_when, keeps_modify. intros c Hc. unfold unreadable in *.
    cbn [imminent_slots]. apply Forall_app. split; [exact Hc|].
    repeat constructor. apply slot_record_unreadable. }
  unfold resolve. apply keeps_bind; [apply keeps_gets | intros info].
  destruct (0 <? List.length info)%nat; [|repeat keeps_step].
  apply keeps_for_each. intros [doctor_id link].
  unfold resolve_provider, requests_get_json.
  apply keeps_bind; [repeat keeps_step | intros data].
  apply keeps_bind; [repeat keeps_step | intros total].
  apply keeps_bind; [repeat keeps_step | intros [|]].
  - unfold resolve_imminent, get_doctor_name. cbv zeta.
    apply keeps_bind; [repeat keeps_step | intros doctor_name].
    do 4 (apply keeps_bind; [repeat keeps_step | intros ?]).
    destruct (_ <=? 0)%nat; [repeat keeps_step|].
    do 2 (apply keeps_bind; [repeat keeps_step | intros ?]).
    apply keeps_bind; [|intros ?; apply keeps_ret].
    apply keeps_for_. intros availability. unfold report_availability.
    do 2 (apply keeps_bind; [repeat keeps_step | intros ?]).
    apply keeps_for_. intros slot. apply Hslot.
  - unfold resolve_faraway, read_timestamp. repeat keeps_step.
Qed.

Lemma countdown_run (n : nat) (c : colls) :
  countdown n c = (Ok tt, c, countdown_trace n).
Proof.
  induction n as [|n IH]; [reflexivity|].
  cbn [countdown]. unfold bind, emit. rewrite IH.
  unfold countdown_trace. rewrite seq_S, rev_app_distr. reflexivity.
Qed.

Lemma countdown_keeps (P : colls -> Prop) (n : nat) : keeps P not_email (countdown n).
Proof.
  induction n as [|n IH]; cbn [countdown]; repeat keeps_step. exact IH.
Qed.

(** X8.  No cycle hands a message to [email_alert], with or without
    [--email]: every record the availability loop appends holds set
    displays, and [check_imminent_slots] raises on the first of them. *)
Theorem cycle_never_emails (logs : list json) (c : colls) :
  filter is_email (events (main logs c)) = []
  /\ Forall (fun record => slot_line record = Raise TypeError)
       (imminent_slots (final (main logs c))).
Proof.
  rewrite main_fresh.
  assert (Hmain : keeps unreadable not_email (main logs)).
  { unfold main, fresh_collections.
    apply keeps_bind; [apply keeps_modify; intros; constructor | intros ?].
    apply keeps_bind; [apply extract_loop_keeps_unreadable | intros ?].
    apply keeps_bind; [unfold report_invalid; repeat keeps_step | intros ?].
    apply keeps_bind; [apply resolve_keeps_unreadable | intros ?].
    apply keeps_bind_gets. intros c0 Hc0.
    apply keeps_bind; [now apply check_imminent_slots_unreadable | intros ?].
    do 2 (apply keeps_bind; [repeat keeps_step | intros ?]).
    apply countdown_keeps. }
  destruct (Hmain empty_colls) as [Hslots Hevents]; [constructor|].
  split; [now apply no_email_filter | exact Hslots].
Qed.

Lemma slept_countdown (n : nat) : slept (countdown_trace n) = n.
Proof.
  unfold countdown_trace.
  assert (H : forall l, slept
                (flat_map (fun i => [Sleep 1;
                                     PrintCR ("Retrying in: " ++ Str.of_nat i ++ " seconds")]) l)
              = List.length l).
  { induction l as [|i l IH]; [reflexivity|].
    cbn [flat_map]. rewrite slept_app, IH. reflexivity. }
  now rewrite H, length_rev, length_seq.
Qed.

(** X9.  The countdown waits one second per tick and shows the seconds left
    from the delay down to 1.  [--delay 0] counts as no delay given and
    waits the default 600 seconds; a negative delay waits not at all. *)
Theorem countdown_waits_delay (c : colls) :
  countdown (Z.to_nat (DELAY cfg)) c = (Ok tt, c, countdown_trace (waited cfg))
  /\ slept (countdown_trace (waited cfg)) = waited cfg
  /\ (delay cfg = Some 0%Z \/ delay cfg = None -> waited cfg = 600%nat)
  /\ (forall d, delay cfg = Some d -> (0 < d)%Z -> waited cfg = Z.to_nat d)
  /\ (forall d, delay cfg = Some d -> (d < 0)%Z -> countdown_trace (waited cfg) = []).
Proof.
  assert (Hw : Z.to_nat (DELAY cfg) = waited cfg).
  { unfold DELAY, waited. destruct (delay cfg) as [d|]; [|reflexivity].
    destruct (d =? 0)%Z; reflexivity. }
  rewrite Hw, countdown_run, slept_countdown.
  repeat split.
  - unfold waited. intros [-> | ->]; reflexivity.
  - unfold waited. intros d -> Hd. destruct (Z.eqb_spec d 0); [lia | reflexivity].
  - unfold waited. intros d -> Hd. destruct (Z.eqb_spec d 0); [lia|].
    destruct d; try lia. reflexivity.
Qed.

Lemma extract_loop_irrelevant (logs : list json) (c : colls) :
  Forall (fun log => log_filter log = Ok false) logs ->
  extract_loop logs c = (Ok tt, c, []).
Proof.
  induction 1 as [|log logs Hlog _ IH]; [reflexivity|].
  cbn [extract_loop]. unfold bind, lift. rewrite Hlog. cbn [when ret].
  now rewrite IH.
Qed.

(** X10.  A cycle whose log holds no relevant entry makes no request and
    sends nothing: it logs that no doctor was found, leaves the driver and
    counts down. *)
Theorem cycle_without_relevant_entry (logs : list json) (c : colls) :
  Forall (fun log => log_filter log = Ok false) logs ->
  main logs c
  = (Ok tt, empty_colls,
     [Log Error "No doctors found!" []; Log Info "Exiting driver…" []; DriverQuit]
     ++ countdown_trace (waited cfg))%list.
Proof.
  intros Hlogs. rewrite main_fresh. unfold main, fresh_collections.
  unfold bind at 1. unfold modify at 1.
  unfold bind at 1. rewrite (extract_loop_irrelevant logs empty_colls Hlogs).
  assert (Hw : Z.to_nat (DELAY cfg) = waited cfg).
  { unfold DELAY, waited. destruct (delay cfg) as [d|]; [|reflexivity].
    destruct (d =? 0)%Z; reflexivity. }
  rewrite Hw.
  unfold report_invalid, resolve, check_imminent_slots, bind, gets, emit.
  cbn [invalid_doctor_ids doctor_info imminent_slots empty_colls List.length
       Nat.ltb Nat.leb when ret].
  rewrite countdown_run. reflexivity.
Qed.

Lemma insert_permutation (x : string) (l : list string) :
  Permutation (Str.insert x l) (x :: l).
Proof.
  induction l as [|y l IH]; cbn [Str.insert]; [reflexivity|].
  destruct (String.leb x y); [reflexivity|].
  rewrite IH. apply perm_swap.
Qed.

Lemma sorted_permutation (l : list string) : Permutation (Str.sorted l) l.
Proof.
  induction l as [|x l IH]; cbn [Str.sorted fold_right]; [reflexivity|].
  fold (Str.sorted l). now rewrite insert_permutation, IH.
Qed.

Lemma insert_sorted (x : string) (l : list string) :
  Sorted le_string l -> Sorted le_string (Str.insert x l).
Proof.
  induction 1 as [|y l Hl IH Hy]; cbn [Str.insert].
  - repeat constructor.
  - destruct (String.leb x y) eqn:E.
    + repeat constructor; assumption.
    + constructor; [exact IH|].
      assert (Hyx : le_string y x).
      { destruct (String.leb_total x y) as [H|H]; [congruence | exact H]. }
      destruct Hy as [|z l Hz]; cbn [Str.insert].
      * now constructor.
      * destruct (String.leb x z); now constructor.
Qed.

Lemma sorted_sorted (l : list string) : Sorted le_string (Str.sorted l).
Proof.
  induction l as [|x l IH]; cbn [Str.sorted fold_right]; [constructor|].
  now apply insert_sorted.
Qed.

(** X11.  With no invalid identifier the extraction ends without a
    warning; otherwise it gives one warning that lists every invalid
    identifier once more, in ascending order, separated by commas. *)
Theorem invalid_ids_reported_sorted (c : colls) :
  (invalid_doctor_ids c = [] -> report_invalid c = (Ok tt, c, []))
  /\ (invalid_doctor_ids c <> [] ->
      exists listing,
        report_invalid c
        = (Ok tt, c, [Log Warning (INVALID_NOTICE ++ Str.join ", " listing) []])
        /\ Permutation listing (invalid_doctor_ids c)
        /\ Sorted le_string listing).
Proof.
  unfold report_invalid, bind, gets. split.
  - intros ->. reflexivity.
  - intros Hne. exists (Str.sorted (invalid_doctor_ids c)).
    split; [|split; [apply sorted_permutation | apply sorted_sorted]].
    destruct (invalid_doctor_ids c) as [|x l]; [congruence|]. reflexivity.
Qed.

Lemma string_app_assoc (a b c0 : string) : (a ++ b) ++ c0 = a ++ b ++ c0.
Proof. induction a as [|ch a IH]; cbn [String.append]; [reflexivity | now rewrite IH]. Qed.

Lemma chars_aux_nonempty (lead : ascii) (s cont : string) :
  Str.chars_aux lead cont s <> [].
Proof.
  revert lead cont. induction s as [|b s IH]; intros lead cont; cbn [Str.chars_aux].
  - discriminate.
  - destruct (Str.is_continuation b); [apply IH | discriminate].
Qed.

Lemma first_char_read (s : string) :
  s <> EmptyString -> pyval_getitem0 (PStr s) = Ok (first_char s).
Proof.
  intros Hs. unfold pyval_getitem0, first_char.
  destruct s as [|b s]; [congruence|]. cbn [Str.chars].
  pose proof (chars_aux_nonempty b s EmptyString) as Hne.
  destruct (Str.chars_aux b EmptyString s); [congruence | reflexivity].
Qed.

Lemma slot_line_text (fields : list string) :
  Forall (fun s => s <> EmptyString) fields ->
  slot_line (string_record fields) = Ok (text_line fields).
Proof.
  intros H.
  destruct fields as [|a [|b [|c0 [|d rest]]]]; try reflexivity.
  - inversion H as [|? ? Ha H1]; subst. inversion H1 as [|? ? Hb _]; subst.
    cbn [string_record map slot_line text_line].
    rewrite (first_char_read a Ha), (first_char_read b Hb). reflexivity.
  - inversion H as [|? ? Ha H1]; subst. inversion H1 as [|? ? Hb H2]; subst.
    inversion H2 as [|? ? Hc _]; subst.
    cbn [string_record map slot_line text_line].
    rewrite (first_char_read a Ha), (first_char_read b Hb), (first_char_read c0 Hc).
    reflexivity.
Qed.

Lemma compose_message_text (records : list (list string)) :
  Forall (Forall (fun s => s <> EmptyString)) records ->
  forall message,
    compose_message message (map string_record records)
    = Ok (message ++ text_lines records).
Proof.
  induction 1 as [|fields records Hf _ IH]; intros message;
    cbn [map compose_message text_lines fold_right].
  - induction message as [|ch m IHm]; cbn [String.append]; [reflexivity|].
    injection IHm as IHm. now rewrite <- IHm.
  - rewrite (slot_line_text fields Hf). cbn [rbind].
    rewrite IH. fold (text_lines records). now rewrite string_app_assoc.
Qed.

(** X12.  On a batch of records whose fields are non-empty strings,
    [check_imminent_slots] sends exactly one message: the subject is
    singular for one record and gives the count otherwise, and the body has,
    in order, one line per record of two or three fields showing the first
    character of each field; records of another size add no line. *)
Theorem string_records_mailed (records : list (list string)) (c : colls) :
  records <> [] ->
  Forall (Forall (fun s => s <> EmptyString)) records ->
  check_imminent_slots (map string_record records) c
  = (Ok tt, c,
     [EmailAlert (subject_for (List.length records))
                 (MESSAGE_HEAD ++ text_lines records)]).
Proof.
  intros Hne Hfields. unfold check_imminent_slots, bind, lift, email_alert, emit.
  rewrite length_map.
  rewrite (compose_message_text records Hfields).
  destruct records as [|r records]; [congruence|].
  cbn [List.length Nat.ltb Nat.leb]. unfold subject_for, MESSAGE_HEAD.
  destruct (S (List.length records) =? 1)%nat; reflexivity.
Qed.

(** X13.  The availability loop and the report leave [doctor_info] and
    [invalid_doctor_ids] as the extraction loop made them, and the
    extraction loop leaves [imminent_slots] alone. *)
Theorem phases_keep_to_their_collections (logs : list json) (c : colls) :
  (doctor_info (final (resolve c)) = doctor_info c
   /\ invalid_doctor_ids (final (resolve c)) = invalid_doctor_ids c)
  /\ (forall slots,
         final (check_imminent_slots slots c) = c)
  /\ imminent_slots (final (extract_loop logs c)) = imminent_slots c.
Proof.
  split; [|split].
  - set (P := fun c0 => doctor_info c0 = doctor_info c
                        /\ invalid_doctor_ids c0 = invalid_doctor_ids c).
    assert (H : keeps P (fun _ => True) resolve).
    { unfold resolve. apply keeps_bind; [apply keeps_gets | intros info].
      destruct (0 <? List.length info)%nat;
        [|apply keeps_emit; exact I].
      apply keeps_for_each. intros [doctor_id link].
      unfold resolve_provider, resolve_imminent, resolve_faraway, get_doctor_name,
        report_availability, report_slot, read_timestamp, requests_get_json,
        append_imminent.
      cbv zeta.
      repeat first
        [ apply keeps_ret | apply keeps_lift | apply keeps_gets
        | apply keeps_emit; exact I
        | apply keeps_modify; intros c0 Hc0; exact Hc0
        | apply keeps_bind; [|intros ?]
        | apply keeps_when | apply keeps_try_except
        | apply keeps_for_; intros ?
        | match goal with
          | |- keeps _ _ (if ?b then _ else _) => destruct b
          | |- keeps _ _ (match ?x with _ => _ end) => destruct x
          end ]. }
    destruct (H c) as [Hc _]; [split; reflexivity | exact Hc].
  - intros slots. unfold check_imminent_slots, bind, lift, email_alert, emit.
    destruct (0 <? List.length slots)%nat; [|reflexivity].
    destruct (compose_message _ slots); [|reflexivity].
    destruct (List.length slots =? 1)%nat; reflexivity.
  - set (P := fun c0 => imminent_slots c0 = imminent_slots c).
    assert (H : keeps P (fun _ => True) (extract_loop logs)).
    { induction logs as [|log logs IH]; cbn [extract_loop].
      - apply keeps_ret.
      - apply keeps_bind; [apply keeps_lift | intros relevant].
        apply keeps_bind; [|intros ?; exact IH].
        apply keeps_when.
        unfold extract_entry, requests_get_json, append_invalid, append_doctor_info.
        repeat first
          [ apply keeps_ret | apply keeps_lift
          | apply keeps_emit; exact I
          | apply keeps_modify; intros c0 Hc0; exact Hc0
          | apply keeps_bind; [|intros ?]
          | match goal with
            | |- keeps _ _ (if ?b then _ else _) => destruct b
            | |- keeps _ _ (match ?x with _ => _ end) => destruct x
            end ]. }
    destruct (H c) as [Hc _]; [reflexivity | exact Hc].
Qed.

Lemma keeps_weaken {A} (P : colls -> Prop) (E E' : event -> Prop) (m : M A) :
  (forall e, E e -> E' e) -> keeps P E m -> keeps P E' m.
Proof.
  intros HE Hm c Hc. destruct (Hm c Hc) as [Hf Ht].
  split; [exact Hf | eapply Forall_impl; eassumption].
Qed.

Lemma keeps_for_each_in {A} (P : colls -> Prop) (E : event -> Prop)
    (body : A -> M ctl) (l : list A) :
  (forall x, In x l -> keeps P E (body x)) -> keeps P E (for_each body l).
Proof.
  induction l as [|x l IH]; intros Hb; cbn [for_each].
  - apply keeps_ret.
  - apply keeps_bind; [apply Hb; now left|].
    intros [|]; [|apply keeps_ret].
    apply IH. intros y Hy. apply Hb. now right.
Qed.

Lemma resolve_requests_links (info : list (string * string)) :
  keeps (fun c => doctor_info c = info) (requests_link_of info) resolve.
Proof.
  unfold resolve. apply keeps_bind_gets. intros c0 Hc0. rewrite Hc0.
  destruct (0 <? List.length info)%nat;
    [|apply keeps_emit; intros url Hurl; discriminate].
  apply keeps_for_each_in. intros [doctor_id link] Hin.
  unfold resolve_provider, resolve_imminent, resolve_faraway, get_doctor_name,
    report_availability, report_slot, read_timestamp, append_imminent.
  cbn [requests_get_json]. cbv zeta.
  apply keeps_bind.
  { apply keeps_bind; [|intros ?; apply keeps_lift].
    apply keeps_emit. intros url [= <-].
    apply in_map_iff. exists (doctor_id, link). now split. }
  intros data.
  repeat first
    [ apply keeps_ret | apply keeps_lift | apply keeps_gets
    | apply keeps_emit; intros url Hurl; discriminate
    | apply keeps_modify; intros c1 Hc1; exact Hc1
    | apply keeps_bind; [|intros ?]
    | apply keeps_when | apply keeps_try_except
    | apply keeps_for_; intros ?
    | match goal with
      | |- keeps _ _ (if ?b then _ else _) => destruct b
      | |- keeps _ _ (match ?x with _ => _ end) => destruct x
      end ].
Qed.

Lemma extract_entry_requests_url (log : json) :
  log_filter log = Ok true ->
  keeps (fun _ => True) (requests_url_of [log]) (extract_entry log).
Proof.
  intros Hrel. unfold extract_entry.
  apply keeps_bind_lift; intros resp_url Hurl.
  apply keeps_bind_lift; intros doctor_id Hid.
  apply keeps_bind; [|intros ?; apply keeps_emit; intros u Hu; discriminate].
  destruct (Str.contains doctor_id (blocked_doctor_ids cfg)).
  { apply keeps_emit; intros u Hu; discriminate. }
  destruct resp_url as [| | |url| |]; try discriminate Hid.
  apply keeps_bind.
  { cbn [requests_get_json]. apply keeps_bind; [|intros ?; apply keeps_lift].
    apply keeps_emit. intros u [= <-]. exists log. repeat split; trivial. now left. }
  intros data. unfold append_invalid, append_doctor_info.
  repeat first
    [ apply keeps_lift
    | apply keeps_emit; intros u Hu; discriminate
    | apply keeps_modify; trivial
    | apply keeps_bind; [|intros ?]
    | match goal with
      | |- keeps _ _ (if ?b then _ else _) => destruct b
      end ].
Qed.

Lemma extract_loop_requests_urls (logs : list json) :
  keeps (fun _ => True) (requests_url_of logs) (extract_loop logs).
Proof.
  induction logs as [|log logs IH]; cbn [extract_loop].
  - apply keeps_ret.
  - apply keeps_bind_lift; intros relevant Hrel.
    apply keeps_bind.
    + destruct relevant; cbn [when]; [|apply keeps_ret].
      apply (keeps_weaken _ (requests_url_of [log])).
      * intros e He url Hurl. destruct (He url Hurl) as (l & [<-|[]] & H1 & H2).
        exists log. repeat split; trivial. now left.
      * now apply extract_entry_requests_url.
    + intros ?. apply (keeps_weaken _ (requests_url_of logs)); [|exact IH].
      intros e He url Hurl. destruct (He url Hurl) as (l & Hin & H1 & H2).
      exists l. repeat split; trivial. now right.
Qed.

(** X14.  A cycle requests nothing but the response URLs of the relevant
    entries of its log, during the extraction, and the links of its
    [doctor_info] records, during the availability loop. *)
Theorem requests_only_known_urls (logs : list json) (c : colls) (url : string) :
  (In (HttpGet url) (events (extract_loop logs c)) ->
   exists log,
     In log logs /\ log_filter log = Ok true
     /\ response_field log "url" = Ok (JStr url))
  /\ (In (HttpGet url) (events (resolve c)) -> In url (map snd (doctor_info c))).
Proof.
  split; intros Hin.
  - destruct (extract_loop_requests_urls logs c I) as [_ H].
    rewrite Forall_forall in H. exact (H _ Hin url eq_refl).
  - destruct (resolve_requests_links (doctor_info c) c eq_refl) as [_ H].
    rewrite Forall_forall in H. exact (H _ Hin url eq_refl).
Qed.

Lemma timestamp_text_raises (stamp : json) (e : exn) :
  timestamp_text stamp = Raise e -> e = ValueError \/ e = AttributeError.
Proof.
  unfold timestamp_text.
  destruct stamp as [| | |s| |]; cbn [Py.split_T rbind];
    try (intros [= <-]; now right).
  destruct (Str.split "T" s) as [|a [|b [|x rest]]]; cbn [rbind];
    try (intros [= <-]; now left).
  cbn [fst snd].
  destruct (fromisoformat lib a); cbn [parsed rbind];
    [|intros [= <-]; now left].
  destruct (strptime lib b "%H:%M:%S.%f%z"); cbn [parsed rbind];
    [discriminate | intros [= <-]; now left].
Qed.

(** X15.  Only a missing [next_slot] is forgiven.  Without [--imminent], a
    [next_slot] that is there and true but does not read as a timestamp
    raises out of the loop, after the request and the "Analyzing" record,
    and the providers after it are not visited. *)
Theorem unreadable_next_slot_raises
    (doctor_id link : string) (data next_slot : json) (e : exn)
    (rest : list (string * string)) (c : colls) :
  imminent cfg = false ->
  requests_get w link = Ok data ->
  Py.getitem data "total" = Ok (JNum 0) ->
  Py.getitem data "next_slot" = Ok next_slot ->
  Py.truthy next_slot = true ->
  timestamp_text next_slot = Raise e ->
  for_each resolve_provider ((doctor_id, link) :: rest) c
  = (Raise e, c, [HttpGet link; Log Info "Analyzing" [link]]).
Proof.
  intros Himm Hget Htotal Hns Htrue Hbad.
  cbn [for_each]. unfold bind at 1.
  rewrite (resolve_provider_zero_total doctor_id link data c Hget Htotal).
  unfold resolve_faraway. rewrite Himm. cbn [negb].
  unfold try_except, bind, lift, emit. rewrite Hns. cbv beta iota.
  rewrite Htrue, read_timestamp_pure, Hbad.
  destruct (timestamp_text_raises next_slot e Hbad) as [-> | ->]; reflexivity.
Qed.

(** X16.  There is no boundary around a provider: when the availability
    request fails, or [total] is missing or cannot be compared with 0, the
    exception ends the loop at that provider with nothing printed, and the
    providers after it are not requested. *)
Theorem failed_availability_request_ends_loop
    (doctor_id link : string) (e : exn) (rest : list (string * string)) (c : colls) :
  (data <-r requests_get w link ;
   total <-r Py.getitem data "total" ;
   Py.gt0 total) = Raise e ->
  for_each resolve_provider ((doctor_id, link) :: rest) c
  = (Raise e, c, [HttpGet link]).
Proof.
  intros H. cbn [for_each]. unfold resolve_provider. cbn [requests_get_json].
  unfold bind, emit, lift.
  destruct (requests_get w link) as [data|e1]; cbn [rbind] in H;
    [|injection H as ->; reflexivity].
  destruct (Py.getitem data "total") as [total|e2]; cbn [rbind] in H;
    [|injection H as ->; reflexivity].
  rewrite H. reflexivity.
Qed.

End Cycle.

Lemma log_filter_iff_witness :
  (log_filter Demo.search_log = Ok true <-> relevant_entry Demo.search_log)
  /\ (log_filter Cases.other_log = Ok false <-> ~ relevant_entry Cases.other_log)
  /\ (log_filter Cases.page_log = Ok false <-> ~ relevant_entry Cases.page_log).
Proof.
  split; [|split].
  - apply (log_filter_iff Demo.search_log).
    exists (JStr "Network.responseReceived"). split; [reflexivity|].
    intros _. exists "application/json". split; [reflexivity|].
    intros _. exists Demo.search_url. reflexivity.
  - apply (log_filter_iff Cases.other_log).
    exists (JStr "Network.requestWillBeSent"). split; [reflexivity|].
    discriminate.
  - apply (log_filter_iff Cases.page_log).
    exists (JStr "Network.responseReceived"). split; [reflexivity|].
    intros _. exists "text/html". split; [reflexivity|].
    intros Hjson. apply contains_substring_of in Hjson. discriminate Hjson.
Defined.

(** ** The properties at work on the sample page *)

Example two_slots_printed :
  console Warning
    (events (resolve_provider (Demo.config true false "") Ref.lib
               (Demo.world Demo.two_slots (Some "Dr Martin"))
               ("5567", Demo.link) empty_colls))
  = [Print (Ref.center (CVIOLET ++ " Dr Martin " ++ CEND) 60 "=");
     Print (imminent_line "Sunday, June 01, 2025" "09:30");
     Print (imminent_line "Sunday, June 01, 2025" "14:00")].
Proof. reflexivity. Qed.

Lemma extraction_raises_without_digits_witness :
  extract_loop (Demo.config false false "") Ref.lib (Demo.world Demo.one_slot None)
    [log_entry "Network.responseReceived" "application/json" Demo.plain_url;
     Demo.search_log] empty_colls
  = (Raise AttributeError, empty_colls, []).
Proof.
  apply (extraction_raises_without_digits
           (Demo.config false false "") Ref.lib (Demo.world Demo.one_slot None)
           (log_entry "Network.responseReceived" "application/json" Demo.plain_url)
           Demo.plain_url [Demo.search_log] empty_colls);
    reflexivity.
Defined.

Lemma blocked_provider_skipped_witness :
  extract_entry (Demo.config false false "1234,5567") Ref.lib
    (Demo.world Demo.one_slot None) Demo.search_log empty_colls
  = (Ok tt, empty_colls, [Log Warning "Skipping blocked doctor_id 5567" []; Sleep 1]).
Proof.
  apply (blocked_provider_skipped
           (Demo.config false false "1234,5567") Ref.lib
           (Demo.world Demo.one_slot None) Demo.search_log
           Demo.search_url "5567" empty_colls).
  - reflexivity.
  - reflexivity.
  - exists "1234,", "". reflexivity.
Defined.

Lemma availability_query_url_built_witness :
  doctor_info
    (final (extract_entry (Demo.config false false "1234") Ref.lib
              (Demo.world Demo.one_slot None) Demo.search_log empty_colls))
  = [("5567", Demo.link)].
Proof.
  apply (availability_query_url_built
           (Demo.config false false "1234") Ref.lib
           (Demo.world Demo.one_slot None) Demo.search_log
           Demo.search_url "5567" Demo.search_body
           [("visit_motive_id", JNum 777);
            ("agenda_ids", JArr [JNum 11; JNum 12]);
            ("practice_ids", JArr [JNum 99])]
           (JNum 777) (JArr [JNum 11; JNum 12]) (JNum 11)
           (JArr [JNum 99]) (JNum 99) empty_colls);
    try reflexivity.
  apply contains_false_iff. reflexivity.
Defined.

Lemma empty_availabilities_abort_cycle_witness :
  for_each
    (resolve_provider (Demo.config true false "") Ref.lib
       (Demo.world Demo.none_listed (Some "Dr Martin")))
    [("5567", Demo.link); ("5568", Demo.search_url)] empty_colls
  = (Ok tt, empty_colls,
     aborted_trace Ref.lib (Demo.world Demo.none_listed (Some "Dr Martin"))
       "5567" Demo.link).
Proof.
  apply (empty_availabilities_abort_cycle
           (Demo.config true false "") Ref.lib
           (Demo.world Demo.none_listed (Some "Dr Martin"))
           "5567" Demo.link Demo.none_listed (JNum 3) (JArr []));
    reflexivity.
Defined.

Lemma faraway_slot_reporting_witness :
  resolve_provider (Demo.config false false "") Ref.lib
    (Demo.world Demo.faraway None) ("5567", Demo.link) empty_colls
  = (Ok Next, empty_colls,
     [HttpGet Demo.link; Log Info "Analyzing" [Demo.link];
      Print (faraway_line "Thursday, July 10, 2025" "10:00")]).
Proof.
  apply (proj2 (proj2 (proj2
           (faraway_slot_reporting
              (Demo.config false false "") Ref.lib (Demo.world Demo.faraway None)
              "5567" Demo.link Demo.faraway empty_colls eq_refl eq_refl)))
           eq_refl
           (JStr "2025-07-10T10:00:00.000000+02:00")
           "2025-07-10" "10:00:00.000000+02:00"
           (Ref.mkDt 2025 7 10 0 0) (Ref.mkDt 1900 1 1 10 0)
           eq_refl eq_refl eq_refl eq_refl).
Defined.

(** C5 as the specification words it fails: [next_slot] is present, [total]
    is zero, [--imminent] is not set, and no faraway line is printed. *)
Lemma null_next_slot_prints_nothing :
  let cfg := Demo.config false false "" in
  let w := Demo.world Demo.null_next_slot None in
  let run := resolve_provider cfg Ref.lib w ("5567", Demo.link) empty_colls in
  requests_get w Demo.link = Ok Demo.null_next_slot
  /\ Py.getitem Demo.null_next_slot "total" = Ok (JNum 0)
  /\ Py.getitem Demo.null_next_slot "next_slot" = Ok JNull
  /\ imminent cfg = false
  /\ outcome run = Ok Next
  /\ List.length (filter is_faraway (events run)) <> 1%nat.
Proof. repeat split. vm_compute. discriminate. Qed.

Lemma no_email_without_flag_witness :
  let run := main (Demo.config true false "") Ref.lib
               (Demo.world Demo.two_slots None) [Demo.search_log] empty_colls in
  imminent_slots (final run) = [] /\ filter is_email (events run) = [].
Proof.
  apply (no_email_without_flag
           (Demo.config true false "") Ref.lib
           (Demo.world Demo.two_slots None) [Demo.search_log] empty_colls).
  reflexivity.
Defined.

Lemma consecutive_cycles_identical_witness :
  let cfg := Demo.config true false "" in
  let cycles := scheduler cfg Ref.lib (Demo.world Demo.two_slots None) 2
                  [Demo.search_log] empty_colls in
  exists t1 t2,
    nth_error cycles 0 = Some t1 /\ nth_error cycles 1 = Some t2
    /\ console (loglevel cfg) t1 = console (loglevel cfg) t2.
Proof.
  intros cfg cycles.
  destruct (nth_error cycles 0) as [t1|] eqn:H1; [|discriminate H1].
  destruct (nth_error cycles 1) as [t2|] eqn:H2; [|discriminate H2].
  exists t1, t2. split; [reflexivity|]. split; [reflexivity|].
  exact (proj1 (consecutive_cycles_identical
                  cfg Ref.lib (Demo.world Demo.two_slots None) 2
                  [Demo.search_log] empty_colls 0 t1 t2 H1 H2)).
Defined.

(** C4.  With [--email] and one imminent slot found, the cycle ends in
    [TypeError] inside [check_imminent_slots]: the batch holds one record
    and no message reaches [email_alert]. *)
Theorem one_slot_cycle_sends_nothing :
  let run := main (Demo.config true true "") Ref.lib
               (Demo.world Demo.one_slot (Some "Dr Martin"))
               [Demo.search_log] empty_colls in
  imminent_slots (final run)
  = [[PSet ["Sunday, June 01, 2025"]; PSet ["09:30"]; PStr "Dr Martin"]]
  /\ outcome run = Raise TypeError
  /\ filter is_email (events run) = [].
Proof. vm_compute. repeat split. Qed.

(** ** The further properties at work on the sample page *)

Lemma log_filter_reads_params_lazily_witness :
  log_filter Cases.other_log = Ok false
  /\ extract_loop (Demo.config false false "") Ref.lib (Demo.world Demo.one_slot None)
       [Cases.bare_log; Demo.search_log] empty_colls
     = (Raise KeyError, empty_colls, []).
Proof.
  split.
  - apply (proj1 (log_filter_reads_params_lazily
                    (Demo.config false false "") Ref.lib
                    (Demo.world Demo.one_slot None) Cases.other_log)
             (JStr "Network.requestWillBeSent")); reflexivity.
  - apply (proj2 (log_filter_reads_params_lazily
                    (Demo.config false false "") Ref.lib
                    (Demo.world Demo.one_slot None) Cases.bare_log)
             KeyError [Demo.search_log] empty_colls); reflexivity.
Defined.

Lemma provider_without_motive_is_invalid_witness :
  extract_entry (Demo.config false false "1234") Ref.lib
    (Cases.world Cases.no_motive Demo.one_slot None) Demo.search_log empty_colls
  = (Ok tt, mkColls [] ["5567"] [],
     [HttpGet Demo.search_url; Log Debug "resp_url:" [Demo.search_url];
      Log Error "Invalid data or doctor does not take new appointments" [];
      Sleep 1]).
Proof.
  apply (provider_without_motive_is_invalid
           (Demo.config false false "1234") Ref.lib
           (Cases.world Cases.no_motive Demo.one_slot None) Demo.search_log
           Demo.search_url "5567" Cases.no_motive
           (JObj [("agenda_ids", JArr [JNum 11])]) empty_colls);
    try reflexivity.
  apply contains_false_iff. reflexivity.
Defined.

Lemma missing_agenda_raises_witness :
  extract_loop (Demo.config false false "1234") Ref.lib
    (Cases.world Cases.no_agenda Demo.one_slot None)
    [Demo.search_log; Demo.search_log] empty_colls
  = (Raise IndexError, empty_colls,
     [HttpGet Demo.search_url; Log Debug "resp_url:" [Demo.search_url]]).
Proof.
  apply (missing_agenda_raises
           (Demo.config false false "1234") Ref.lib
           (Cases.world Cases.no_agenda Demo.one_slot None) Demo.search_log
           Demo.search_url "5567" Cases.no_agenda
           (JObj [("visit_motive_id", JNum 777);
                  ("agenda_ids", JArr []);
                  ("practice_ids", JArr [JNum 99])])
           (JNum 777) IndexError [Demo.search_log] empty_colls);
    try reflexivity.
  apply contains_false_iff. reflexivity.
Defined.

Lemma blocked_by_substring_witness :
  hd_error (events (extract_entry (Demo.config false false "155670") Ref.lib
                      (Demo.world Demo.one_slot None) Demo.search_log empty_colls))
  = Some (Log Warning "Skipping blocked doctor_id 5567" []).
Proof.
  apply (proj1 (proj2 (proj2
           (blocked_by_substring
              (Demo.config false false "155670") Ref.lib
              (Demo.world Demo.one_slot None) Demo.search_log
              Demo.search_url "5567" empty_colls eq_refl eq_refl)))
           "15567").
  - exists "1", "". reflexivity.
  - exists "", "0". reflexivity.
Defined.


Lemma slots_reported_in_order_witness :
  resolve_provider (Demo.config true true "") Ref.lib
    (Demo.world Demo.two_slots (Some "Dr Martin")) ("5567", Demo.link) empty_colls
  = (Ok Next,
     mkColls [] []
       [[PSet ["Sunday, June 01, 2025"]; PSet ["09:30"]; PStr "Dr Martin"];
        [PSet ["Sunday, June 01, 2025"]; PSet ["14:00"]; PStr "Dr Martin"]],
     provider_head Ref.lib (Demo.world Demo.two_slots (Some "Dr Martin"))
       "5567" Demo.link
     ++ [Print (imminent_line "Sunday, June 01, 2025" "09:30");
         Print (imminent_line "Sunday, June 01, 2025" "14:00")])%list.
Proof.
  apply (slots_reported_in_order
           (Demo.config true true "") Ref.lib
           (Demo.world Demo.two_slots (Some "Dr Martin")) "5567" Demo.link
           Demo.two_slots (JNum 2)
           [JObj [("date", JStr "2025-06-01");
                  ("slots", JArr [JStr "2025-06-01T09:30:00.000000+02:00";
                                  JStr "2025-06-01T14:00:00.000000+02:00"])]]
           [[("Sunday, June 01, 2025", "09:30"); ("Sunday, June 01, 2025", "14:00")]]
           empty_colls);
    try reflexivity.
  - discriminate.
  - constructor; [|constructor].
    exists [JStr "2025-06-01T09:30:00.000000+02:00";
            JStr "2025-06-01T14:00:00.000000+02:00"].
    split; [reflexivity|]. repeat constructor.
Defined.


Lemma countdown_waits_delay_witness :
  waited (Cases.config_delay (Some 0%Z)) = 600%nat
  /\ countdown_trace (waited (Cases.config_delay (Some (-5)%Z))) = [].
Proof.
  split.
  - apply (proj1 (proj2 (proj2
             (countdown_waits_delay (Cases.config_delay (Some 0%Z)) empty_colls)))).
    left. reflexivity.
  - apply (proj2 (proj2 (proj2 (proj2
             (countdown_waits_delay (Cases.config_delay (Some (-5)%Z)) empty_colls))))
             (-5)%Z); [reflexivity | lia].
Defined.

Lemma cycle_without_relevant_entry_witness :
  main (Demo.config true true "") Ref.lib (Demo.world Demo.one_slot None)
    [Cases.other_log; Cases.other_log] empty_colls
  = (Ok tt, empty_colls,
     [Log Error "No doctors found!" []; Log Info "Exiting driver…" []; DriverQuit;
      Sleep 1; PrintCR "Retrying in: 2 seconds";
      Sleep 1; PrintCR "Retrying in: 1 seconds"]).
Proof.
  apply (cycle_without_relevant_entry
           (Demo.config true true "") Ref.lib (Demo.world Demo.one_slot None)
           [Cases.other_log; Cases.other_log] empty_colls).
  repeat constructor.
Defined.

Lemma invalid_ids_reported_sorted_witness :
  exists listing,
    report_invalid Cases.invalid_found
    = (Ok tt, Cases.invalid_found,
       [Log Warning (INVALID_NOTICE ++ Str.join ", " listing) []])
    /\ Permutation listing ["30"; "4"; "12"]
    /\ Sorted le_string listing.
Proof.
  apply (proj2 (invalid_ids_reported_sorted Cases.invalid_found)).
  discriminate.
Defined.

Lemma string_records_mailed_witness :
  check_imminent_slots
    [[PStr "Sunday, June 01, 2025"; PStr "09:30"; PStr "Dr Martin"];
     [PStr "Monday, June 02, 2025"; PStr "08:00"]] empty_colls
  = (Ok tt, empty_colls,
     [EmailAlert "Found 2 imminent appointments on Doctolib"
        (MESSAGE_HEAD ++ "- S @ 0 with D" ++ NL ++ "- M @ 0" ++ NL)]).
Proof.
  apply (string_records_mailed
           [["Sunday, June 01, 2025"; "09:30"; "Dr Martin"];
            ["Monday, June 02, 2025"; "08:00"]] empty_colls).
  - discriminate.
  - repeat constructor; discriminate.
Defined.

Lemma requests_only_known_urls_witness :
  In Demo.link
    (map snd (doctor_info (mkColls [("5567", Demo.link)] [] []))).
Proof.
  apply (proj2 (requests_only_known_urls
                  (Demo.config true false "") Ref.lib
                  (Demo.world Demo.two_slots None) []
                  (mkColls [("5567", Demo.link)] [] []) Demo.link)).
  left. reflexivity.
Defined.

Lemma unreadable_next_slot_raises_witness :
  for_each
    (resolve_provider (Demo.config false false "") Ref.lib
       (Demo.world (JObj [("total", JNum 0); ("next_slot", JStr "soon")]) None))
    [("5567", Demo.link); ("5568", Demo.link)] empty_colls
  = (Raise ValueError, empty_colls,
     [HttpGet Demo.link; Log Info "Analyzing" [Demo.link]]).
Proof.
  apply (unreadable_next_slot_raises
           (Demo.config false false "") Ref.lib
           (Demo.world (JObj [("total", JNum 0); ("next_slot", JStr "soon")]) None)
           "5567" Demo.link
           (JObj [("total", JNum 0); ("next_slot", JStr "soon")])
           (JStr "soon") ValueError [("5568", Demo.link)] empty_colls);
    reflexivity.
Defined.

Lemma failed_availability_request_ends_loop_witness :
  for_each
    (resolve_provider (Demo.config false false "") Ref.lib
       (Demo.world (JObj [("availabilities", JArr [])]) None))
    [("5567", Demo.link); ("5568", Demo.link)] empty_colls
  = (Raise KeyError, empty_colls, [HttpGet Demo.link]).
Proof.
  apply (failed_availability_request_ends_loop
           (Demo.config false false "") Ref.lib
           (Demo.world (JObj [("availabilities", JArr [])]) None)
           "5567" Demo.link KeyError [("5568", Demo.link)] empty_colls).
  reflexivity.
Defined.

(** C7.  The [start_date] of the link is the date read when the module was
    loaded, not the date of the cycle: a program started on 2025-06-01 and
    still polling on 2025-06-02 asks, in that later cycle, for
    [start_date=2025-06-01], and for no link with [start_date=2025-06-02]. *)
Theorem start_date_goes_stale :
  let cfg := loaded Cases.overnight (Some 2%Z) true false Warning "" in
  let cycles := scheduler cfg Ref.lib (Demo.world Demo.two_slots None) 2
                  [Demo.search_log] empty_colls in
  let today := date_in_cycle Cases.overnight 1 in
  today = "2025-06-02"
  /\ exists later,
       nth_error cycles 1 = Some later
       /\ In (HttpGet
                "https://www.doctolib.fr/availabilities.json?start_date=2025-06-01&visit_motive_ids=777&agenda_ids=11&practice_ids=99&limit=15")
            later
       /\ forallb (fun e => match e with
                            | HttpGet url => negb (Str.contains ("start_date=" ++ today) url)
                            | _ => true
                            end) later = true.
Proof.
  split; [reflexivity|].
  eexists. split; [vm_compute; reflexivity|].
  split; [|vm_compute; reflexivity].
  cbn. tauto.
Qed.
